(** * Radar ingestion pipeline of [client/src/util/factory.js]

    A shallow embedding of the radar factory: the domain builder
    [plotRadar], the three ingestion callbacks, the spreadsheet
    authentication flow and the locator [GoogleSheetInput.build],
    followed by the properties of the specification that concern them.

    Conventions of the embedding.
    - A JavaScript string is a [string]: a sequence of 8-bit characters.
      ASCII characters stand for themselves, any other character is the
      sequence of the octets of its UTF-8 encoding.  Case mapping is
      defined on the ASCII letters; what is stated of a case-mapped name
      is stated of strings of ASCII characters ([Js.is_ascii]).  The
      comparison of a lower-cased string with ['true'] is exact for every
      string, as no character outside ASCII has a lower case among the
      letters of [true].
    - [undefined] is [None]; a value that is always present is unwrapped.
    - A plain object used as a dictionary is a list of its own properties
      in order of creation; reading a property that it does not own falls
      back on the properties inherited from [Object.prototype]
      ([JsObject.lookup]).
    - Side effects are recorded in a trace of [Event]s; an exception ends
      a computation with [Throw]. *)

From Stdlib Require Import ZArith Lia Ascii String List.
From stdpp Require Import base option list strings gmap.

Local Open Scope string_scope.
Local Open Scope list_scope.

(** ** JavaScript strings *)

Module Js.

Definition is_upper (c : ascii) : bool :=
  (65 <=? nat_of_ascii c)%nat && (nat_of_ascii c <=? 90)%nat.

Definition is_lower (c : ascii) : bool :=
  (97 <=? nat_of_ascii c)%nat && (nat_of_ascii c <=? 122)%nat.

Definition lower_char (c : ascii) : ascii :=
  if is_upper c then ascii_of_nat (nat_of_ascii c + 32) else c.

Definition upper_char (c : ascii) : ascii :=
  if is_lower c then ascii_of_nat (nat_of_ascii c - 32) else c.

(** [String.prototype.toLowerCase] *)
Fixpoint toLowerCase (s : string) : string :=
  match s with
  | EmptyString => EmptyString
  | String c s' => String (lower_char c) (toLowerCase s')
  end.

(** lodash [upperFirst] *)
Definition upperFirst (s : string) : string :=
  match s with
  | EmptyString => EmptyString
  | String c s' => String (upper_char c) s'
  end.

(** lodash [capitalize]: [upperFirst(toString(string).toLowerCase())].
    On a string of ASCII characters this is the value that lodash
    returns; lodash also maps the letters outside ASCII, which are left
    as they are here. *)
Definition capitalize (s : string) : string := upperFirst (toLowerCase s).


(** [String.prototype.endsWith]: [suffix] is one of the tails of [s]. *)
Fixpoint endsWith (s suffix : string) : bool :=
  String.eqb s suffix
  || match s with
     | EmptyString => false
     | String _ s' => endsWith s' suffix
     end.

(** [s.substring(0, n)] for [0 <= n <= s.length] *)
Definition substring0 (n : nat) (s : string) : string :=
  String.substring 0 n s.

(** String coercion of a possibly undefined string, as performed by [+]. *)
Definition to_str (v : option string) : string :=
  match v with
  | Some s => s
  | None => "undefined"
  end.

(** Truthiness of a possibly undefined string. *)
Definition truthy (v : option string) : bool :=
  match v with
  | Some s => negb (String.eqb s "")
  | None => false
  end.

End Js.

(** ** Exceptions and display messages *)

(** The constants of [./exceptionMessages] that the factory refers to, and
    those of the validator. *)
Inductive ExceptionMessages : Type :=
| TOO_MANY_RINGS
| MISSING_HEADERS
| MISSING_CONTENT.

(** The values that are thrown or passed to error callbacks. [status] is
    the [status] property of a response object of the spreadsheet API. *)
Inductive Error : Type :=
| MalformedDataError (message : ExceptionMessages)
| SheetNotFoundError (message : string)
| TypeError (message : string)
| URIError
| ResponseError (status : Z)
| OtherError (message : string).

Definition is_MalformedDataError (e : Error) : bool :=
  match e with MalformedDataError _ => true | _ => false end.

Definition is_SheetNotFoundError (e : Error) : bool :=
  match e with SheetNotFoundError _ => true | _ => false end.

(** [error.status] *)
Definition status (e : Error) : option Z :=
  match e with ResponseError s => Some s | _ => None end.

(** ** The domain model *)

(** Modelled from the spec: [../models/ring], [../models/blip],
    [../models/quadrant] and [../models/radar] are not part of the
    sources at hand. A Ring is a name with an order; a Blip refers to its
    Ring (the reference is whatever the ring lookup returned); a Quadrant
    has a display name and an ordered sequence of Blips, only appended to;
    a Radar owns its Quadrants, the current sheet name and the alternative
    sheet names. *)
Record Ring : Type := mkRing { Ring_name : string; Ring_order : nat }.

Record Blip : Type := mkBlip {
  Blip_name : string;
  Blip_ring : option Ring;
  Blip_isNew : bool;
  Blip_topic : string;
  Blip_description : string }.

Record Quadrant : Type := mkQuadrant {
  Quadrant_name : string;
  Quadrant_blips : list Blip }.

Record Radar : Type := mkRadar {
  Radar_quadrants : list Quadrant;
  Radar_alternatives : list string;
  Radar_currentSheet : option string }.

Definition Quadrant_add (q : Quadrant) (b : Blip) : Quadrant :=
  mkQuadrant (Quadrant_name q) (Quadrant_blips q ++ [b]).

Definition Radar_empty : Radar := mkRadar [] [] None.

Definition Radar_addQuadrant (r : Radar) (q : Quadrant) : Radar :=
  mkRadar (Radar_quadrants r ++ [q]) (Radar_alternatives r) (Radar_currentSheet r).

Definition Radar_addAlternative (r : Radar) (sheetName : string) : Radar :=
  mkRadar (Radar_quadrants r) (Radar_alternatives r ++ [sheetName]) (Radar_currentSheet r).

Definition Radar_setCurrentSheet (r : Radar) (sheetName : option string) : Radar :=
  mkRadar (Radar_quadrants r) (Radar_alternatives r) sheetName.

(** The blips of a radar, over all its quadrants. *)
Definition Radar_blips (r : Radar) : list Blip :=
  concat (map Quadrant_blips (Radar_quadrants r)).

(** The record handed to [plotRadar] for one row: every field is still a
    string at this point. *)
Record InputBlip : Type := mkInputBlip {
  name : string;
  quadrant : string;
  ring : string;
  isNew : string;
  topic : string;
  description : string }.

(** ** Effects *)

(** The pages that the factory appends to the document body. *)
Inductive Page : Type :=
| LoadingPage
| FormPage
| ErrorPage (message : string) (detail : option ExceptionMessages)
| UnauthorizedPage.

Inductive Event : Type :=
| SetDocumentTitle (title : string)
| RemoveLoading
| NewRing (r : Ring)
| NewQuadrant (displayName : string)
| NewBlip (b : Blip)
| NewRadar
| GraphingRadarPlot (size : Z) (radar : Radar)
| Display (p : Page)
| ConsoleError (e : Error)
| ConsoleLog (v : option string)
| SheetValidate (sheetReference : string)
| TabletopInit (sheetReference : string)
| LoadGoogle
| Login (force : bool)
| ProcessSheetResponse (sheetReference : string) (sheetName : option string)
| FetchCsv (url : string).

Inductive Completion (A : Type) : Type :=
| Normal (a : A)
| Throw (e : Error).
Arguments Normal {A} a.
Arguments Throw {A} e.

(** A computation: the events it performed, in order, and how it ended. *)
Record Eff (A : Type) : Type := Run {
  trace : list Event;
  outcome : Completion A }.
Arguments Run {A} trace outcome.
Arguments trace {A} _.
Arguments outcome {A} _.

#[global] Instance Eff_ret : MRet Eff := fun A a => Run [] (Normal a).

#[global] Instance Eff_bind : MBind Eff := fun A B f m =>
  match outcome m with
  | Normal a => Run (trace m ++ trace (f a)) (outcome (f a))
  | Throw e => Run (trace m) (Throw e)
  end.

Definition emit (ev : Event) : Eff unit := Run [ev] (Normal tt).

Definition throw {A : Type} (e : Error) : Eff A := Run [] (Throw e).

(** [try { body } catch (exception) { handler(exception) }] *)
Definition try_catch {A : Type} (body : Eff A) (handler : Error -> Eff A) : Eff A :=
  match outcome body with
  | Normal a => body
  | Throw e => Run (trace body ++ trace (handler e)) (outcome (handler e))
  end.

(** A loop over an array that threads the state the callback mutates. *)
Fixpoint foldM {A St : Type} (f : St -> A -> Eff St) (l : list A) (s : St) : Eff St :=
  match l with
  | [] => mret s
  | x :: l' => s' ← f s x; foldM f l' s'
  end.

(** The same with the index handed to the callback, counted from [i]. *)
Fixpoint foldM_indexed {A St : Type} (f : St -> A -> nat -> Eff St)
    (i : nat) (l : list A) (s : St) : Eff St :=
  match l with
  | [] => mret s
  | x :: l' => s' ← f s x i; foldM_indexed f (S i) l' s'
  end.

(** ** Plain objects used as dictionaries *)

Module JsObject.

(** The own string-keyed properties, in order of creation. *)
Definition t (V : Type) : Type := list (string * V).

Definition empty {V : Type} : t V := [].

(** [o[k]] *)
Fixpoint get {V : Type} (o : t V) (k : string) : option V :=
  match o with
  | [] => None
  | (k', v) :: o' => if String.eqb k' k then Some v else get o' k
  end.

(** The names of the properties that a plain object inherits from
    [Object.prototype]. *)
Definition inherited : list string :=
  [ "constructor"; "__defineGetter__"; "__defineSetter__"; "hasOwnProperty";
    "__lookupGetter__"; "__lookupSetter__"; "isPrototypeOf";
    "propertyIsEnumerable"; "toString"; "valueOf"; "__proto__";
    "toLocaleString" ].

Definition is_inherited (k : string) : bool := bool_decide (k ∈ inherited).

(** What reading [o[k]] yields: the own property, else the inherited one
    (a function, or for [__proto__] the prototype itself: truthy values
    without a method [add]), else [undefined]. *)
Inductive Property (V : Type) : Type :=
| Own (v : V)
| Inherited
| Undefined.
Arguments Own {V} v.
Arguments Inherited {V}.
Arguments Undefined {V}.

Definition lookup {V : Type} (o : t V) (k : string) : Property V :=
  match get o k with
  | Some v => Own v
  | None => if is_inherited k then Inherited else Undefined
  end.

(** [o[k] = v]: an existing property keeps its place. *)
Fixpoint set {V : Type} (o : t V) (k : string) (v : V) : t V :=
  match o with
  | [] => [(k, v)]
  | (k', v') :: o' =>
      if String.eqb k' k then (k', v) :: o' else (k', v') :: set o' k v
  end.

Definition is_digit (c : ascii) : bool :=
  (48 <=? nat_of_ascii c)%nat && (nat_of_ascii c <=? 57)%nat.

Fixpoint digits_value (acc : N) (s : string) : option N :=
  match s with
  | EmptyString => Some acc
  | String c s' =>
      if is_digit c
      then digits_value (10 * acc + (N_of_ascii c - 48))%N s'
      else None
  end.

(** The keys that are array indices: canonical decimal numerals below
    [2^32 - 1]. *)
Definition array_index (k : string) : option N :=
  match k with
  | EmptyString => None
  | String c k' =>
      if Ascii.eqb c "0"
      then (if String.eqb k' "" then Some 0%N else None)
      else match digits_value 0 k with
           | Some n => if (n <? 4294967295)%N then Some n else None
           | None => None
           end
  end.

Fixpoint insert_by_index {V : Type} (n : N) (kv : string * V)
    (l : list (N * (string * V))) : list (N * (string * V)) :=
  match l with
  | [] => [(n, kv)]
  | (m, kv') :: l' =>
      if (n <? m)%N then (n, kv) :: l else (m, kv') :: insert_by_index n kv l'
  end.

Fixpoint indexed {V : Type} (o : t V) : list (N * (string * V)) :=
  match o with
  | [] => []
  | kv :: o' =>
      match array_index (fst kv) with
      | Some n => insert_by_index n kv (indexed o')
      | None => indexed o'
      end
  end.

Fixpoint named {V : Type} (o : t V) : t V :=
  match o with
  | [] => []
  | kv :: o' =>
      match array_index (fst kv) with
      | Some _ => named o'
      | None => kv :: named o'
      end
  end.

(** The order in which the own properties are enumerated: array indices
    in ascending order, then the other keys in order of creation. *)
Definition entries {V : Type} (o : t V) : t V :=
  map snd (indexed o) ++ named o.

(** The values as [_.each(o, f)] visits them. *)
Definition values {V : Type} (o : t V) : list V := map snd (entries o).

End JsObject.

(** ** lodash on arrays *)

(** [_.uniqBy(array, key)]: the first element for every computed key, in
    order; [seen] is the array of the keys met so far. *)
Fixpoint uniqBy_from {A : Type} (key : A -> string) (seen : list string)
    (l : list A) : list A :=
  match l with
  | [] => []
  | x :: l' =>
      if bool_decide (key x ∈ seen)
      then uniqBy_from key seen l'
      else x :: uniqBy_from key (seen ++ [key x]) l'
  end.

Definition uniqBy {A : Type} (l : list A) (key : A -> string) : list A :=
  uniqBy_from key [] l.

(** ** [plotRadar] *)

Definition maxRings : nat := 4.

Definition new_Ring (ringName : string) (i : nat) : Eff Ring :=
  emit (NewRing (mkRing ringName i));; mret (mkRing ringName i).

Definition new_Quadrant (displayName : string) : Eff Quadrant :=
  emit (NewQuadrant displayName);; mret (mkQuadrant displayName []).

Definition new_Blip (n : string) (r : option Ring) (isnew : bool)
    (t d : string) : Eff Blip :=
  emit (NewBlip (mkBlip n r isnew t d));; mret (mkBlip n r isnew t d).

Definition new_Radar : Eff Radar := emit NewRadar;; mret Radar_empty.

(** The value of [blip.isNew.toLowerCase() === 'true']. *)
Definition isNew_flag (raw : string) : bool :=
  String.eqb (Js.toLowerCase raw) "true".

(** The first loop: one Ring per distinct name, an exception at the fifth.
    [ringMap] is read at the ring strings of the rows only, and each of
    them has been assigned by then, so a read never falls back on an
    inherited property; assigning [__proto__] makes the Ring the prototype
    of [ringMap], and reading [__proto__] yields that Ring again. *)
Definition add_ring (ringMap : gmap string Ring) (ringName : string) (i : nat)
    : Eff (gmap string Ring) :=
  if (i =? maxRings)%nat
  then throw (MalformedDataError TOO_MANY_RINGS)
  else r ← new_Ring ringName i; mret (<[ringName := r]> ringMap).

(** The second loop: a quadrant is created when [quadrants[blip.quadrant]]
    is falsy, and every row adds a Blip to [quadrants[blip.quadrant]].  A
    quadrant string that names an inherited property reads as a truthy
    value, so no Quadrant is created for it; the call of its missing [add]
    fails once the argument, the new Blip, has been evaluated. *)
Definition add_blip (ringMap : gmap string Ring)
    (quadrants : JsObject.t Quadrant) (blip : InputBlip)
    : Eff (JsObject.t Quadrant) :=
  quadrants ←
    match JsObject.lookup quadrants (quadrant blip) with
    | JsObject.Undefined =>
        q ← new_Quadrant (Js.capitalize (quadrant blip));
        mret (JsObject.set quadrants (quadrant blip) q)
    | _ => mret quadrants
    end;
  match JsObject.lookup quadrants (quadrant blip) with
  | JsObject.Own q =>
      b ← new_Blip (name blip) (ringMap !! ring blip) (isNew_flag (isNew blip))
            (topic blip) (description blip);
      mret (JsObject.set quadrants (quadrant blip) (Quadrant_add q b))
  | JsObject.Inherited =>
      new_Blip (name blip) (ringMap !! ring blip) (isNew_flag (isNew blip))
        (topic blip) (description blip);;
      throw (TypeError "quadrants[blip.quadrant].add is not a function")
  | JsObject.Undefined =>
      throw (TypeError "quadrants[blip.quadrant] is undefined")
  end.

Definition plotRadar (innerHeight : Z) (title : string)
    (blips : list InputBlip) (currentRadarName : option string)
    (alternativeRadars : option (list string)) : Eff unit :=
  let title :=
    if Js.endsWith title ".csv"
    then Js.substring0 (String.length title - 4) title
    else title in
  emit (SetDocumentTitle title);;
  emit RemoveLoading;;
  let rings := map ring (uniqBy blips ring) in
  ringMap ← foldM_indexed add_ring 0 rings ∅;
  quadrants ← foldM (add_blip ringMap) blips JsObject.empty;
  radar ← new_Radar;
  radar ← foldM (fun radar q => mret (Radar_addQuadrant radar q))
            (JsObject.values quadrants) radar;
  radar ←
    (if bool_decide (alternativeRadars ≠ None) || true
     then match alternativeRadars with
          | Some sheetNames =>
              foldM (fun radar sheetName => mret (Radar_addAlternative radar sheetName))
                    sheetNames radar
          | None => throw (TypeError "alternativeRadars is undefined")
          end
     else mret radar);
  radar ←
    (if bool_decide (currentRadarName ≠ None) || true
     then mret (Radar_setCurrentSheet radar currentRadarName)
     else mret radar);
  let size := if (innerHeight - 133 <? 620)%Z then 620%Z else (innerHeight - 133)%Z in
  emit (GraphingRadarPlot size radar).

(** ** Strings of the navigation context *)

Module Uri.

(** [s.replace(/\+/g, ' ')] *)
Fixpoint replace_plus (s : string) : string :=
  match s with
  | EmptyString => EmptyString
  | String c s' => String (if Ascii.eqb c "+" then " "%char else c) (replace_plus s')
  end.

Definition hex_value (c : ascii) : option N :=
  let n := N_of_ascii c in
  if (48 <=? n)%N && (n <=? 57)%N then Some (n - 48)%N
  else if (65 <=? n)%N && (n <=? 70)%N then Some (n - 55)%N
  else if (97 <=? n)%N && (n <=? 102)%N then Some (n - 87)%N
  else None.

Inductive Token : Type :=
| Lit (c : ascii)
| Esc (byte : N).

(** The escape sequences of a string; [None] when a [%] is not followed by
    two hexadecimal digits. *)
Fixpoint tokens (s : string) : option (list Token) :=
  match s with
  | EmptyString => Some []
  | String c s' =>
      if Ascii.eqb c "%"
      then match s' with
           | String h1 (String h2 rest) =>
               match hex_value h1, hex_value h2, tokens rest with
               | Some a, Some b, Some ts => Some (Esc (16 * a + b) :: ts)
               | _, _, _ => None
               end
           | _ => None
           end
      else match tokens s' with
           | Some ts => Some (Lit c :: ts)
           | None => None
           end
  end.

Definition between (lo hi b : N) : bool := (lo <=? b)%N && (b <=? hi)%N.

(** The escaped octets have to form well-formed UTF-8; the decoded
    character is kept as these octets. *)
Fixpoint decode_tokens (ts : list Token) : option (list ascii) :=
  match ts with
  | [] => Some []
  | Lit c :: ts' => cs ← decode_tokens ts'; Some (c :: cs)
  | Esc b :: ts' =>
      if (b <? 128)%N
      then cs ← decode_tokens ts'; Some (ascii_of_N b :: cs)
      else if between 194 223 b
      then match ts' with
           | Esc b2 :: ts2 =>
               if between 128 191 b2
               then cs ← decode_tokens ts2;
                    Some (ascii_of_N b :: ascii_of_N b2 :: cs)
               else None
           | _ => None
           end
      else if between 224 239 b
      then match ts' with
           | Esc b2 :: Esc b3 :: ts3 =>
               if between (if (b =? 224)%N then 160 else 128)
                          (if (b =? 237)%N then 159 else 191) b2
                  && between 128 191 b3
               then cs ← decode_tokens ts3;
                    Some (ascii_of_N b :: ascii_of_N b2 :: ascii_of_N b3 :: cs)
               else None
           | _ => None
           end
      else if between 240 244 b
      then match ts' with
           | Esc b2 :: Esc b3 :: Esc b4 :: ts4 =>
               if between (if (b =? 240)%N then 144 else 128)
                          (if (b =? 244)%N then 143 else 191) b2
                  && between 128 191 b3 && between 128 191 b4
               then cs ← decode_tokens ts4;
                    Some (ascii_of_N b :: ascii_of_N b2 :: ascii_of_N b3
                            :: ascii_of_N b4 :: cs)
               else None
           | _ => None
           end
      else None
  end.

(** The decoded string; [None] when the string is malformed. *)
Definition decode (s : string) : option string :=
  cs ← tokens s ≫= decode_tokens; Some (string_of_list_ascii cs).

(** [decodeURIComponent] *)
Definition decodeURIComponent (s : string) : Eff string :=
  match decode s with
  | Some decoded => mret decoded
  | None => throw URIError
  end.

(** The line terminators, which [.] does not match: the line feed, the
    carriage return, and the line and paragraph separators U+2028 and
    U+2029, which are the octets E2 80 A8 and E2 80 A9. *)
Definition is_line_separator (s : string) : bool :=
  match s with
  | String c1 (String c2 (String c3 _)) =>
      Ascii.eqb c1 "226" && Ascii.eqb c2 "128"
      && (Ascii.eqb c3 "168" || Ascii.eqb c3 "169")
  | _ => false
  end.

(** Whether a line terminator stands at the front of [s]. *)
Definition is_line_terminator (s : string) : bool :=
  match s with
  | EmptyString => false
  | String c _ =>
      Ascii.eqb c "010" || Ascii.eqb c "013" || is_line_separator s
  end.

Definition is_separator (c : ascii) : bool :=
  Ascii.eqb c "/" || Ascii.eqb c "\".

(** The longest run of characters other than [/] and [\] at the front. *)
Fixpoint segment (s : string) : string :=
  match s with
  | EmptyString => EmptyString
  | String c s' => if is_separator c then EmptyString else String c (segment s')
  end.

(** [:\/\/([^\\/]+)] at the front of [s]: the captured group. *)
Definition scheme_mark (s : string) : option string :=
  match s with
  | String ":" (String "/" (String "/" rest)) =>
      if String.eqb (segment rest) "" then None else Some (segment rest)
  | _ => None
  end.

(** The rest of [.+:\/\/([^\\/]+)] once [.+] has taken one character: the
    greedy [.+] takes more characters first and gives them back one by
    one. *)
Fixpoint domain_rest (s : string) : option string :=
  match s with
  | EmptyString => None
  | String c s' =>
      match (if is_line_terminator s then None else domain_rest s') with
      | Some d => Some d
      | None => scheme_mark s
      end
  end.

Definition domain_at (s : string) : option string :=
  match s with
  | EmptyString => None
  | String c s' => if is_line_terminator s then None else domain_rest s'
  end.

(** [/.+:\/\/([^\\/]+)/.exec(s)]: the captured group of the leftmost
    match.  The next place to try is the next character; past a line or
    paragraph separator that is three octets on. *)
Fixpoint domain_exec (s : string) : option string :=
  match domain_at s with
  | Some d => Some d
  | None =>
      match s with
      | EmptyString => None
      | String _ s' =>
          match s' with
          | String _ (String _ s3) =>
              if is_line_separator s then domain_exec s3 else domain_exec s'
          | _ => domain_exec s'
          end
      end
  end.

(** [/([^\\/]+)$/.exec(s)]: the captured group, which is the last
    segment when the string does not end with a separator. *)
Fixpoint file_exec (s : string) : option string :=
  match s with
  | EmptyString => None
  | String c s' =>
      if negb (is_separator c) && String.eqb (segment s') s'
      then Some s
      else file_exec s'
  end.

Fixpoint line (s : string) : string :=
  match s with
  | EmptyString => EmptyString
  | String c s' => if is_line_terminator s then EmptyString else String c (line s')
  end.

(** [s.match] with the pattern [sheetId] followed by the rest of the
    line: the text of the leftmost match. *)
Fixpoint match_sheetId (s : string) : option string :=
  if String.prefix "sheetId" s
  then Some (line s)
  else match s with
       | EmptyString => None
       | String _ s' => match_sheetId s'
       end.

(** [s.substring(1)] *)
Definition substring1 (s : string) : string :=
  match s with
  | EmptyString => EmptyString
  | String _ s' => s'
  end.

End Uri.

(** [DomainName] *)
Definition DomainName (url : string) : Eff (option string) :=
  decoded ← Uri.decodeURIComponent (Uri.replace_plus url);
  mret (Uri.domain_exec decoded).

(** [FileName] *)
Definition FileName (url : string) : Eff string :=
  decoded ← Uri.decodeURIComponent (Uri.replace_plus url);
  match Uri.file_exec decoded with
  | Some str => mret str
  | None => mret url
  end.

(** ** Validation and sanitization *)

(** A row keyed by column label. *)
Definition RawRow : Type := JsObject.t string.

Module ContentValidator.

(** Modelled from the spec: [./contentValidator] is not part of the
    sources at hand. The required field names are name, ring, quadrant,
    isNew and description. *)
Definition required : list string :=
  ["name"; "ring"; "quadrant"; "isNew"; "description"].

(** Modelled from the spec: [verifyContent] fails with MalformedDataError
    if the count is zero; the validator is built from the column names,
    so the count is theirs. *)
Definition verifyContent (columnNames : list string) : Eff unit :=
  if bool_decide (length columnNames = 0)
  then throw (MalformedDataError MISSING_CONTENT)
  else mret tt.

(** Modelled from the spec: [verifyHeaders] fails with MalformedDataError
    unless the header set is a superset of the required field names. *)
Definition verifyHeaders (columnNames : list string) : Eff unit :=
  if forallb (fun field => bool_decide (field ∈ columnNames)) required
  then mret tt
  else throw (MalformedDataError MISSING_HEADERS).

End ContentValidator.

Module InputSanitizer.

Definition is_space (c : ascii) : bool :=
  Ascii.eqb c " " || ((9 <=? nat_of_ascii c)%nat && (nat_of_ascii c <=? 13)%nat).

Fixpoint trim_start (s : string) : string :=
  match s with
  | EmptyString => EmptyString
  | String c s' => if is_space c then trim_start s' else s
  end.

Fixpoint trim_end (s : string) : string :=
  match s with
  | EmptyString => EmptyString
  | String c s' =>
      match trim_end s' with
      | EmptyString => if is_space c then EmptyString else String c EmptyString
      | t => String c t
      end
  end.

(** [String.prototype.trim] *)
Definition trim (s : string) : string := trim_end (trim_start s).

Definition field (row : RawRow) (label : string) : string :=
  match JsObject.get row label with
  | Some v => trim v
  | None => ""
  end.

(** Modelled from the spec: [./inputSanitizer] is not part of the sources
    at hand. [sanitize] maps a row keyed by header name to the canonical
    record and trims whitespace on every field; a missing column gives a
    blank string. [plotRadar] lower-cases and compares [isNew] itself, so
    the field is still the string here. *)
Definition sanitize (rawBlip : RawRow) : InputBlip :=
  mkInputBlip (field rawBlip "name") (field rawBlip "quadrant")
              (field rawBlip "ring") (field rawBlip "isNew")
              (field rawBlip "topic") (field rawBlip "description").

(** The pairs of a header and a row of values, by positional index. *)
Fixpoint pair_up (header : list string) (values : list string) : RawRow :=
  match header, values with
  | h :: header', v :: values' => JsObject.set (pair_up header' values') h v
  | _, _ => JsObject.empty
  end.

(** Modelled from the spec: [sanitizeForProtectedSheet] re-pairs the
    values of a positional row to the labels of the header by positional
    index and then follows the rules of [sanitize]. *)
Definition sanitizeForProtectedSheet (rawBlip : list string)
    (header : list string) : InputBlip :=
  sanitize (pair_up header rawBlip).

End InputSanitizer.

(** ** The collaborators *)

(** What Tabletop hands to its callback. *)
Record TabletopSheet : Type := mkTabletopSheet {
  columnNames : list string;
  all : list RawRow }.

Record Tabletop : Type := mkTabletop {
  foundSheetNames : list string;
  sheets : option string -> option TabletopSheet;
  googleSheetName : string }.

(** What [d3.csv] resolves to: the rows and their [columns] property. *)
Record CsvData : Type := mkCsvData {
  columns : list string;
  rows : list RawRow }.

(** What the protected read hands to its callbacks. *)
Inductive SheetResponse : Type :=
| SheetData (documentTitle : string) (values : list (list string))
            (sheetNames : list string)
| SheetError (error : Error).

(** The window and the remote parties: every answer the factory waits for.
    [QueryParams] is [./queryParamProcessor]; [Sheet_id], [Sheet_validate]
    and [Sheet_processSheetResponse] are [./sheet]; [GoogleAuth_login] tells
    whether the login calls back. *)
Record Env : Type := mkEnv {
  innerHeight : Z;
  href : string;
  search : string;
  QueryParams : string -> Completion (JsObject.t string);
  Sheet_id : string -> string;
  Sheet_validate : string -> option Error;
  Tabletop_init : string -> option Tabletop;
  GoogleAuth_login : bool -> bool;
  Sheet_processSheetResponse : string -> option string -> SheetResponse;
  d3_csv : string -> option CsvData }.

(** ** Pages *)

Definition default_title : string := "MCS Tech Radar; Azure CoE Team".

Definition setDocumentTitle : Eff unit := emit (SetDocumentTitle default_title).

Definition plotLoading : Eff unit :=
  setDocumentTitle;; emit (Display LoadingPage).

Definition not_found_message : string :=
  "Oops! We can't find the Google Sheet you've entered".

Definition plotErrorMessage (exception : Error) : Eff unit :=
  setDocumentTitle;;
  emit RemoveLoading;;
  match exception with
  | MalformedDataError m => emit (Display (ErrorPage not_found_message (Some m)))
  | SheetNotFoundError m => emit (Display (ErrorPage m None))
  | _ => emit (ConsoleError exception);; emit (Display (ErrorPage not_found_message None))
  end.

Definition plotUnauthorizedErrorMessage : Eff unit :=
  setDocumentTitle;;
  emit RemoveLoading;;
  emit (Display UnauthorizedPage).

(** The page of the last branch of [GoogleSheetInput().build()]: banner,
    form and footer. *)
Definition plotForm : Eff unit := emit (Display FormPage).

(** ** The ingestion callbacks *)

(** [foundSheetNames[0]] when no sheet name was given. *)
Definition default_sheetName (sheetName : option string) (names : list string)
    : option string :=
  if Js.truthy sheetName then sheetName else names !! 0.

(** [createBlips] of [GoogleSheet.build] *)
Definition createBlips (env : Env) (sheetName : option string)
    (tabletop : Tabletop) : Eff unit :=
  try_catch
    (let sheetName := default_sheetName sheetName (foundSheetNames tabletop) in
     sheet ← match sheets tabletop sheetName with
             | Some sheet => mret sheet
             | None => throw (TypeError "tabletop.sheets(...) is undefined")
             end;
     ContentValidator.verifyContent (columnNames sheet);;
     ContentValidator.verifyHeaders (columnNames sheet);;
     sheet ← match sheets tabletop sheetName with
             | Some sheet => mret sheet
             | None => throw (TypeError "tabletop.sheets(...) is undefined")
             end;
     let blips := map InputSanitizer.sanitize (all sheet) in
     plotRadar (innerHeight env)
               (googleSheetName tabletop +:+ " - " +:+ Js.to_str sheetName)
               blips sheetName (Some (foundSheetNames tabletop)))
    plotErrorMessage.

(** [createBlipsForProtectedSheet] *)
Definition createBlipsForProtectedSheet (env : Env) (sheetName : option string)
    (documentTitle : string) (values : list (list string))
    (sheetNames : list string) : Eff unit :=
  let sheetName := default_sheetName sheetName sheetNames in
  foldM (fun (_ : unit) (value : list string) =>
           match values !! 0 with
           | Some columnNames =>
               ContentValidator.verifyContent columnNames;;
               ContentValidator.verifyHeaders columnNames
           | None => throw (TypeError "columnNames is undefined")
           end) values tt;;
  match values with
  | header :: all =>
      let blips :=
        map (fun blip => InputSanitizer.sanitizeForProtectedSheet blip header) all in
      plotRadar (innerHeight env) (documentTitle +:+ " - " +:+ Js.to_str sheetName)
                blips sheetName (Some sheetNames)
  | [] =>
      plotRadar (innerHeight env) (documentTitle +:+ " - " +:+ Js.to_str sheetName)
                [] sheetName (Some sheetNames)
  end.

(** [createBlips] of [CSVDocument] *)
Definition CSVDocument_createBlips (env : Env) (url : string) (data : CsvData)
    : Eff unit :=
  try_catch
    (ContentValidator.verifyContent (columns data);;
     ContentValidator.verifyHeaders (columns data);;
     let blips := map InputSanitizer.sanitize (rows data) in
     title ← FileName url;
     plotRadar (innerHeight env) title blips (Some "CSV File") (Some []))
    plotErrorMessage.

(** ** The spreadsheet flow *)

(** [GoogleSheet(...).authenticate(force, callback)]; [callback] stands for
    the effects of the optional callback. *)
Definition GoogleSheet_authenticate (env : Env) (sheetReference : string)
    (sheetName : option string) (force : bool) (callback : Eff unit) : Eff unit :=
  emit LoadGoogle;;
  emit (Login force);;
  if GoogleAuth_login env force
  then
    emit (ProcessSheetResponse sheetReference sheetName);;
    callback;;
    match Sheet_processSheetResponse env sheetReference sheetName with
    | SheetData documentTitle values sheetNames =>
        createBlipsForProtectedSheet env sheetName documentTitle values sheetNames
    | SheetError error =>
        if bool_decide (status error = Some 403%Z)
        then plotUnauthorizedErrorMessage
        else plotErrorMessage error
    end
  else mret tt.

(** [GoogleSheet(...).build()] *)
Definition GoogleSheet_build (env : Env) (sheetReference : string)
    (sheetName : option string) : Eff unit :=
  emit (SheetValidate sheetReference);;
  match Sheet_validate env sheetReference with
  | None =>
      emit (TabletopInit (Sheet_id env sheetReference));;
      match Tabletop_init env (Sheet_id env sheetReference) with
      | Some tabletop => createBlips env sheetName tabletop
      | None => mret tt
      end
  | Some error =>
      if is_SheetNotFoundError error
      then plotErrorMessage error
      else GoogleSheet_authenticate env sheetReference sheetName false (mret tt)
  end.

(** [GoogleSheet(...).init()] and [CSVDocument(...).init()] *)
Definition init : Eff unit := plotLoading.

(** [CSVDocument(...).build()] *)
Definition CSVDocument_build (env : Env) (url : string) : Eff unit :=
  emit (FetchCsv url);;
  match d3_csv env url with
  | Some data => CSVDocument_createBlips env url data
  | None => mret tt
  end.

(** ** The locator *)

(** [queryParams.sheetId.endsWith('csv')] *)
Definition sheetId_endsWith_csv (queryParams : JsObject.t string) : Eff bool :=
  match JsObject.get queryParams "sheetId" with
  | Some sheetId => mret (Js.endsWith sheetId "csv")
  | None => throw (TypeError "queryParams.sheetId is undefined")
  end.

(** [queryString ? QueryParams(queryString[0]) : {}] *)
Definition queryParams_of (env : Env) : Completion (JsObject.t string) :=
  match Uri.match_sheetId (href env) with
  | Some queryString => QueryParams env queryString
  | None => Normal JsObject.empty
  end.

(** [GoogleSheetInput().build()] *)
Definition GoogleSheetInput_build (env : Env) : Eff unit :=
  domainName ← DomainName (Uri.substring1 (search env));
  queryParams ← Run [] (queryParams_of env);
  (if Js.truthy domainName then sheetId_endsWith_csv queryParams else mret false)
  ≫= fun csv : bool =>
  if csv
  then init;; CSVDocument_build env (Js.to_str (JsObject.get queryParams "sheetId"))
  else if Js.truthy domainName
          && Js.endsWith (Js.to_str domainName) "google.com"
          && Js.truthy (JsObject.get queryParams "sheetId")
  then
    emit (ConsoleLog (JsObject.get queryParams "sheetName"));;
    init;;
    GoogleSheet_build env (Js.to_str (JsObject.get queryParams "sheetId"))
                      (JsObject.get queryParams "sheetName")
  else setDocumentTitle;; plotForm.

(** ** Pure descriptions of what the loops of [plotRadar] compute *)

(** The number of distinct values in a list of names. *)
Definition distinct_count (l : list string) : nat := length (remove_dups l).

(** The distinct ring names, in order of first occurrence. *)
Definition rings_of (blips : list InputBlip) : list string :=
  map ring (uniqBy blips ring).

(** The events and the [ringMap] of the first loop when it runs to its end. *)
Fixpoint ring_events (i : nat) (rings : list string) : list Event :=
  match rings with
  | [] => []
  | n :: rs => NewRing (mkRing n i) :: ring_events (S i) rs
  end.

Fixpoint ring_map_from (i : nat) (rings : list string) (m : gmap string Ring)
    : gmap string Ring :=
  match rings with
  | [] => m
  | n :: rs => ring_map_from (S i) rs (<[n := mkRing n i]> m)
  end.

Definition ringMap_of (blips : list InputBlip) : gmap string Ring :=
  ring_map_from 0 (rings_of blips) ∅.

(** The Blip built for a row. *)
Definition to_Blip (ringMap : gmap string Ring) (b : InputBlip) : Blip :=
  mkBlip (name b) (ringMap !! ring b) (isNew_flag (isNew b)) (topic b) (description b).

Definition ensure_quadrant (o : JsObject.t Quadrant) (k : string) : JsObject.t Quadrant :=
  match JsObject.lookup o k with
  | JsObject.Undefined => JsObject.set o k (mkQuadrant (Js.capitalize k) [])
  | _ => o
  end.

(** The effect of one round of the second loop on [quadrants]. *)
Definition group_blip (ringMap : gmap string Ring) (o : JsObject.t Quadrant)
    (b : InputBlip) : JsObject.t Quadrant :=
  match JsObject.get (ensure_quadrant o (quadrant b)) (quadrant b) with
  | Some q =>
      JsObject.set (ensure_quadrant o (quadrant b)) (quadrant b)
                   (Quadrant_add q (to_Blip ringMap b))
  | None => ensure_quadrant o (quadrant b)
  end.

Definition quadrant_events (o : JsObject.t Quadrant) (b : InputBlip) : list Event :=
  match JsObject.lookup o (quadrant b) with
  | JsObject.Undefined => [NewQuadrant (Js.capitalize (quadrant b))]
  | _ => []
  end.

(** The rows whose quadrant string names an inherited property, at which
    the second loop fails, and the exception it fails with. *)
Definition names_inherited (b : InputBlip) : bool :=
  JsObject.is_inherited (quadrant b).

Definition plain_quadrants (blips : list InputBlip) : bool :=
  forallb (fun b => negb (names_inherited b)) blips.

(** The rows before the first one whose quadrant names an inherited
    property, and that row. *)
Fixpoint before_inherited (blips : list InputBlip) : list InputBlip :=
  match blips with
  | [] => []
  | b :: bs => if names_inherited b then [] else b :: before_inherited bs
  end.

Definition first_inherited (blips : list InputBlip) : option InputBlip :=
  List.find names_inherited blips.

(** The rows that the second loop reaches: all of them, or those up to
    and including the first one whose quadrant names an inherited
    property. *)
Definition reached (blips : list InputBlip) : list InputBlip :=
  before_inherited blips
    ++ match first_inherited blips with
       | Some b => [b]
       | None => []
       end.


Definition add_is_not_a_function : Error :=
  TypeError "quadrants[blip.quadrant].add is not a function".

Fixpoint blip_events (ringMap : gmap string Ring) (o : JsObject.t Quadrant)
    (blips : list InputBlip) : list Event :=
  match blips with
  | [] => []
  | b :: bs =>
      quadrant_events o b ++ NewBlip (to_Blip ringMap b)
        :: blip_events ringMap (group_blip ringMap o b) bs
  end.

Definition all_blips (o : JsObject.t Quadrant) : list Blip :=
  concat (map (fun kv => Quadrant_blips (snd kv)) o).

Definition quadrants_of (blips : list InputBlip) : JsObject.t Quadrant :=
  fold_left (group_blip (ringMap_of blips)) blips JsObject.empty.

Definition radar_of (blips : list InputBlip) (currentRadarName : option string)
    (alternativeRadars : list string) : Radar :=
  mkRadar (JsObject.values (quadrants_of blips)) alternativeRadars currentRadarName.

Definition display_title (title : string) : string :=
  if Js.endsWith title ".csv"
  then Js.substring0 (String.length title - 4) title
  else title.

Definition plot_size (innerHeight : Z) : Z :=
  if (innerHeight - 133 <? 620)%Z then 620%Z else (innerHeight - 133)%Z.

(** [m] after the events [t]. *)
Definition prefixed {A : Type} (t : list Event) (m : Eff A) : Eff A :=
  Run (t ++ trace m) (outcome m).

#[global] Instance Ring_eq_dec : EqDecision Ring.
Proof. solve_decision. Defined.

(** Modelled from the spec: the Radar model is not part of the sources at
    hand; a Blip holds a reference to its Ring and many Blips may share one
    Ring, so the Rings of a Radar are the distinct Rings its Blips refer to. *)
Definition Radar_rings (r : Radar) : list Ring :=
  remove_dups (omap Blip_ring (Radar_blips r)).

(** The events by which the model is built and handed over. *)
Definition builds_model (ev : Event) : bool :=
  match ev with
  | NewQuadrant _ | NewBlip _ | NewRadar | GraphingRadarPlot _ _ => true
  | _ => false
  end.

(** The handing over of a Radar to the graphing radar. *)
Definition hands_over (ev : Event) : bool :=
  match ev with
  | GraphingRadarPlot _ _ => true
  | _ => false
  end.



(** The place of a label in a header: the index of its first occurrence. *)
Fixpoint position (label : string) (header : list string) : option nat :=
  match header with
  | [] => None
  | h :: header' =>
      if String.eqb h label then Some 0 else S <$> position label header'
  end.

(** The cell of a positional row under a label of the header: the value at
    the place of the label, trimmed; blank when the header has no such label
    or the row ends before that place. *)
Definition cell (header row : list string) (label : string) : string :=
  match position label header ≫= (fun i => row !! i) with
  | Some v => InputSanitizer.trim v
  | None => ""
  end.

(** The rows of a protected sheet after its header, sanitized. *)
Definition protected_blips (header : list string) (rows : list (list string))
    : list InputBlip :=
  map (fun blip => InputSanitizer.sanitizeForProtectedSheet blip header) rows.

(** The title that the ingestion of a spreadsheet hands to [plotRadar]. *)
Definition sheet_title (documentTitle : string) (sheetName : option string) : string :=
  documentTitle +:+ " - " +:+ Js.to_str sheetName.

(** ** Sample inputs *)

Definition sample_blip (n q r i : string) : InputBlip := mkInputBlip n q r i "" "".

Definition five_rings : list InputBlip :=
  [ sample_blip "a" "tools" "Adopt" "true";
    sample_blip "b" "tools" "Trial" "false";
    sample_blip "c" "tools" "Assess" "false";
    sample_blip "d" "tools" "Hold" "false";
    sample_blip "e" "tools" "Retire" "false" ].

Definition three_rings : list InputBlip :=
  [ sample_blip "a" "tools" "Adopt" "TRUE";
    sample_blip "b" "platforms" "Trial" "false";
    sample_blip "c" "tools" "Adopt" "";
    sample_blip "d" "techniques" "Hold" "yes" ].


(** Rows of which the second has a quadrant called [constructor], the
    name of a property that every plain object inherits. *)
Definition inherited_quadrant : list InputBlip :=
  [ sample_blip "a" "tools" "Adopt" "true";
    sample_blip "b" "constructor" "Trial" "false";
    sample_blip "c" "tools" "Hold" "false" ].

(** Modelled from the spec: [./queryParamProcessor] is not part of the
    sources at hand. The navigation input carries a [sheetId] parameter and
    an optional [sheetName] parameter; the query string is read as
    [key=value] pairs joined by [&], both sides URL-decoded. It is used for
    the sample navigation contexts only. *)
Module QueryParamsModel.

Fixpoint split_on (sep : ascii) (s : string) : list string :=
  match s with
  | EmptyString => [EmptyString]
  | String c s' =>
      if Ascii.eqb c sep
      then EmptyString :: split_on sep s'
      else match split_on sep s' with
           | part :: parts => String c part :: parts
           | [] => [String c EmptyString]
           end
  end.

Fixpoint key_of (s : string) : string :=
  match s with
  | EmptyString => EmptyString
  | String c s' => if Ascii.eqb c "=" then EmptyString else String c (key_of s')
  end.

Fixpoint value_of (s : string) : string :=
  match s with
  | EmptyString => EmptyString
  | String c s' => if Ascii.eqb c "=" then s' else value_of s'
  end.

Definition add_pair (o : Completion (JsObject.t string)) (pair : string)
    : Completion (JsObject.t string) :=
  match o with
  | Throw e => Throw e
  | Normal o =>
      if String.eqb (key_of pair) ""
      then Normal o
      else match Uri.decode (Uri.replace_plus (key_of pair)),
                 Uri.decode (Uri.replace_plus (value_of pair)) with
           | Some k, Some v => Normal (JsObject.set o k v)
           | _, _ => Throw URIError
           end
  end.

Definition QueryParams (queryString : string) : Completion (JsObject.t string) :=
  fold_left add_pair (split_on "&" queryString) (Normal JsObject.empty).

End QueryParamsModel.

Definition sample_header : list string :=
  ["name"; "ring"; "quadrant"; "isNew"; "description"].

Definition sample_values : list (list string) :=
  [ sample_header;
    ["a"; "Adopt"; "tools"; "TRUE"; "first"];
    ["b"; "Trial"; "platforms"; "false"; "second"] ].

Definition five_ring_values : list (list string) :=
  [ sample_header;
    ["a"; "Adopt"; "tools"; "true"; ""];
    ["b"; "Trial"; "tools"; "false"; ""];
    ["c"; "Assess"; "tools"; "false"; ""];
    ["d"; "Hold"; "tools"; "false"; ""];
    ["e"; "Retire"; "tools"; "false"; ""] ].

(** A navigation context and the answers of the remote parties. *)
Definition sample_env (href search : string) (validation : option Error)
    (login : bool) (response : SheetResponse) : Env :=
  mkEnv 900 href search QueryParamsModel.QueryParams
        (fun sheetReference => sheetReference)
        (fun _ => validation)
        (fun _ => None)
        (fun _ => login)
        (fun _ _ => response)
        (fun _ => None).

Definition location_env (href search : string) : Env :=
  sample_env href search None false (SheetError (OtherError "offline")).

Definition relative_csv_env : Env :=
  location_env "http://localhost:8080/?sheetId=data.csv" "?sheetId=data.csv".

Definition hosted_csv_env : Env :=
  location_env "http://localhost:8080/?sheetId=https://example.com/data.csv"
               "?sheetId=https://example.com/data.csv".

Definition google_env : Env :=
  location_env
    "http://localhost:8080/?sheetId=https%3A%2F%2Fdocs.google.com%2Fspreadsheets%2Fd%2Fabc123%2Fedit&sheetName=Q1"
    "?sheetId=https%3A%2F%2Fdocs.google.com%2Fspreadsheets%2Fd%2Fabc123%2Fedit&sheetName=Q1".

Definition empty_env : Env := location_env "http://localhost:8080/" "".

Definition no_sheetId_env : Env :=
  location_env "http://localhost:8080/?from=http://example.com"
               "?from=http://example.com".

Definition malformed_sheetId_env : Env :=
  location_env "http://localhost:8080/?sheetId=%" "?sheetId=%".

(** ** What a trace holds *)

(** The Rings, the display names of the Quadrants and the Blips that a run
    created, in order of creation. *)
Definition created_rings (t : list Event) : list Ring :=
  omap (fun ev => match ev with NewRing r => Some r | _ => None end) t.


Definition created_blips (t : list Event) : list Blip :=
  omap (fun ev => match ev with NewBlip b => Some b | _ => None end) t.

(** The Radars handed to the graphing radar, with the size of the plot. *)
Definition handed_over (t : list Event) : list (Z * Radar) :=
  omap (fun ev => match ev with GraphingRadarPlot s r => Some (s, r) | _ => None end) t.

(** The error pages shown: message and detail. *)
Definition error_pages (t : list Event) : list (string * option ExceptionMessages) :=
  omap (fun ev => match ev with
                  | Display (ErrorPage m d) => Some (m, d)
                  | _ => None
                  end) t.

(** The calls to the remote parties. *)
Definition is_remote (ev : Event) : bool :=
  match ev with
  | SheetValidate _ | TabletopInit _ | LoadGoogle | Login _
  | ProcessSheetResponse _ _ | FetchCsv _ => true
  | _ => false
  end.

(** A string without [/] and [\]. *)
Fixpoint no_separator (s : string) : bool :=
  match s with
  | EmptyString => true
  | String c s' => negb (Uri.is_separator c) && no_separator s'
  end.

(** A string without [%] and [+]: nothing to decode. *)
Fixpoint plain (s : string) : bool :=
  match s with
  | EmptyString => true
  | String c s' => negb (Ascii.eqb c "%") && negb (Ascii.eqb c "+") && plain s'
  end.

(** A run that touches no remote party and shows no error page, and that
    has handed over one Radar when it ends normally and none when it
    throws. *)
Definition settles (m : Eff unit) : Prop :=
  Forall (fun ev => is_remote ev = false) (trace m)
  /\ error_pages (trace m) = []
  /\ length (handed_over (trace m))
     = match outcome m with Normal _ => 1 | Throw _ => 0 end.

(** A string without line terminators. *)
Fixpoint one_line (s : string) : bool :=
  match s with
  | EmptyString => true
  | String _ s' => negb (Uri.is_line_terminator s) && one_line s'
  end.

(** A string that is empty or starts with [/] or [\]. *)
Definition at_boundary (s : string) : bool :=
  match s with
  | EmptyString => true
  | String c _ => Uri.is_separator c
  end.

(** Sample rows keyed by column label, a sample sheet and a sample file. *)
Definition sample_rows : list RawRow :=
  [ [("name", "a"); ("ring", "Adopt"); ("quadrant", "tools"); ("isNew", "TRUE");
     ("description", "first")];
    [("name", "b"); ("ring", "Trial"); ("quadrant", "platforms"); ("isNew", "false");
     ("description", "second")] ].

Definition sample_tabletop : Tabletop :=
  mkTabletop ["Q1"; "Q2"]
             (fun _ => Some (mkTabletopSheet sample_header sample_rows)) "Radar".

Definition sample_csv : CsvData := mkCsvData sample_header sample_rows.

(** A navigation context in which the anonymous read of the spreadsheet
    succeeds and Tabletop calls back with the sample sheets. *)
Definition public_env : Env :=
  mkEnv 900 "http://localhost:8080/" "" QueryParamsModel.QueryParams
        (fun sheetReference => sheetReference)
        (fun _ => None)
        (fun _ => Some sample_tabletop)
        (fun _ => false)
        (fun _ _ => SheetError (OtherError "not asked"))
        (fun _ => None).

(** * Properties *)

(** ** The embedding at work *)

Example display_title_strips_csv :
  display_title "radar.csv" = "radar" /\ display_title "My Radar" = "My Radar".
Proof. split; reflexivity. Qed.

Example capitalize_lowers_the_rest :
  Js.capitalize "tOOLS and more" = "Tools and more".
Proof. reflexivity. Qed.

Example DomainName_of_csv_url :
  DomainName "sheetId=https://example.com/data.csv" = mret (Some "example.com").
Proof. reflexivity. Qed.

Example DomainName_of_escaped_url :
  DomainName "sheetId=https%3A%2F%2Fdocs.google.com%2Fspreadsheets%2Fd%2Fabc123"
  = mret (Some "docs.google.com").
Proof. reflexivity. Qed.

Example DomainName_is_greedy :
  DomainName "a://b/c://d/e" = mret (Some "d").
Proof. reflexivity. Qed.

Example DomainName_without_scheme :
  DomainName "sheetId=data.csv" = mret None /\ DomainName "" = mret None.
Proof. split; reflexivity. Qed.

Example FileName_of_url :
  FileName "https://example.com/data.csv" = mret "data.csv"
  /\ FileName "https://example.com/" = mret "https://example.com/".
Proof. split; reflexivity. Qed.

Example own_keys_order :
  JsObject.values (JsObject.set (JsObject.set (JsObject.set JsObject.empty "b" 1) "2" 2) "1" 3)
  = [3; 2; 1].
Proof. reflexivity. Qed.

Example uniqBy_keeps_first :
  map name (uniqBy three_rings ring) = ["a"; "b"; "d"].
Proof. reflexivity. Qed.

(** ** Lists and computations *)

Lemma map_fmap {A B} (f : A -> B) (l : list A) : map f l = f <$> l.
Proof. reflexivity. Qed.

Section uniqBy.
Context {A : Type} (key : A -> string).

Lemma elem_of_uniqBy_from (seen : list string) (l : list A) (k : string) :
  k ∈ map key (uniqBy_from key seen l) <-> k ∈ map key l /\ k ∉ seen.
Proof.
  revert seen. induction l as [|x l IH]; intros seen; simpl.
  - rewrite elem_of_nil. tauto.
  - case_bool_decide as Hx; simpl.
    + rewrite IH, elem_of_cons. split; [tauto|].
      intros [[->|?] ?]; tauto.
    + rewrite !elem_of_cons, IH, elem_of_app, list_elem_of_singleton.
      split.
      * intros [->|(? & ?)]; [tauto|]. split; [tauto|]. tauto.
      * intros [[->|?] ?]; [tauto|].
        destruct (decide (k = key x)); tauto.
Qed.

Lemma NoDup_uniqBy_from (seen : list string) (l : list A) :
  NoDup (map key (uniqBy_from key seen l)).
Proof.
  revert seen. induction l as [|x l IH]; intros seen; simpl.
  - constructor.
  - case_bool_decide as Hx; simpl; [apply IH|].
    apply NoDup_cons. split; [|apply IH].
    rewrite elem_of_uniqBy_from, elem_of_app, list_elem_of_singleton. tauto.
Qed.

Lemma length_uniqBy (l : list A) :
  length (map key (uniqBy l key)) = distinct_count (map key l).
Proof.
  unfold distinct_count, uniqBy. apply Permutation_length.
  apply NoDup_Permutation.
  - apply NoDup_uniqBy_from.
  - apply NoDup_remove_dups.
  - intros k. rewrite elem_of_uniqBy_from, elem_of_remove_dups, elem_of_nil. tauto.
Qed.

Lemma uniqBy_from_app (seen : list string) (l1 l2 : list A) :
  uniqBy_from key seen (l1 ++ l2) =
  uniqBy_from key seen l1 ++
  uniqBy_from key (seen ++ map key (uniqBy_from key seen l1)) l2.
Proof.
  revert seen. induction l1 as [|x l1 IH]; intros seen; simpl.
  - by rewrite app_nil_r.
  - case_bool_decide; simpl; [apply IH|].
    rewrite IH. by rewrite <- app_assoc.
Qed.
End uniqBy.

Lemma bind_Normal {A B} (t : list Event) (a : A) (f : A -> Eff B) :
  Run t (Normal a) ≫= f = Run (t ++ trace (f a)) (outcome (f a)).
Proof. reflexivity. Qed.

Lemma bind_Throw {A B} (t : list Event) (e : Error) (f : A -> Eff B) :
  Run t (Throw e) ≫= f = Run t (Throw e).
Proof. reflexivity. Qed.

Lemma bind_prefixed {A B} (t : list Event) (a : A) (f : A -> Eff B) :
  Run t (Normal a) ≫= f = prefixed t (f a).
Proof. reflexivity. Qed.

Lemma prefixed_Run {A} (t t' : list Event) (c : Completion A) :
  prefixed t (Run t' c) = Run (t ++ t') c.
Proof. reflexivity. Qed.

Lemma ret_bind {A B} (a : A) (f : A -> Eff B) : mret a ≫= f = f a.
Proof. unfold mbind, Eff_bind; simpl. by destruct (f a). Qed.

Lemma add_ring_below (m : gmap string Ring) (n : string) (i : nat) :
  i <> maxRings ->
  add_ring m n i = Run [NewRing (mkRing n i)] (Normal (<[n := mkRing n i]> m)).
Proof.
  intros Hne. unfold add_ring.
  destruct (Nat.eqb_spec i maxRings) as [|_]; [done|]. reflexivity.
Qed.

Lemma add_ring_at_max (m : gmap string Ring) (n : string) :
  add_ring m n maxRings = Run [] (Throw (MalformedDataError TOO_MANY_RINGS)).
Proof. reflexivity. Qed.

Lemma foldM_indexed_add_ring_ok (i : nat) (rings : list string) (m : gmap string Ring) :
  i + length rings <= maxRings ->
  foldM_indexed add_ring i rings m =
  Run (ring_events i rings) (Normal (ring_map_from i rings m)).
Proof.
  revert i m. induction rings as [|n rs IH]; intros i m Hlen; cbn [foldM_indexed length] in *.
  - reflexivity.
  - rewrite add_ring_below by lia. rewrite bind_Normal, IH by lia. reflexivity.
Qed.

Lemma foldM_indexed_add_ring_throw (i : nat) (rings : list string) (m : gmap string Ring) :
  i <= maxRings -> maxRings < i + length rings ->
  foldM_indexed add_ring i rings m =
  Run (ring_events i (take (maxRings - i) rings))
      (Throw (MalformedDataError TOO_MANY_RINGS)).
Proof.
  revert i m. induction rings as [|n rs IH]; intros i m Hi Hlen; cbn [foldM_indexed length] in *.
  - lia.
  - destruct (decide (i = maxRings)) as [->|Hne].
    + rewrite add_ring_at_max, bind_Throw, Nat.sub_diag. reflexivity.
    + rewrite add_ring_below, bind_Normal, IH by lia.
      replace (maxRings - i) with (S (maxRings - S i)) by lia.
      reflexivity.
Qed.

Lemma ring_map_from_notin (i : nat) (rings : list string) (m : gmap string Ring) (n : string) :
  n ∉ rings -> ring_map_from i rings m !! n = m !! n.
Proof.
  revert i m. induction rings as [|r rs IH]; intros i m Hn; simpl; [done|].
  apply not_elem_of_cons in Hn as [Hne Hn].
  rewrite IH by done. by rewrite lookup_insert_ne.
Qed.

Lemma ring_map_from_lookup (i j : nat) (rings : list string) (m : gmap string Ring) (n : string) :
  NoDup rings -> rings !! j = Some n ->
  ring_map_from i rings m !! n = Some (mkRing n (i + j)).
Proof.
  revert i j m. induction rings as [|r rs IH]; intros i j m Hnd Hj; [done|].
  apply NoDup_cons in Hnd as [Hr Hnd]. destruct j as [|j]; simpl in *.
  - injection Hj as ->. rewrite ring_map_from_notin by done.
    rewrite lookup_insert_eq. by rewrite Nat.add_0_r.
  - rewrite (IH (S i) j) by done. f_equal. f_equal. lia.
Qed.

Section JsObject_facts.
Context {V : Type}.
Implicit Types (o : JsObject.t V) (k : string) (v : V).

Lemma get_set_eq o k v : JsObject.get (JsObject.set o k v) k = Some v.
Proof.
  induction o as [|[k' v'] o IH]; simpl.
  - by rewrite String.eqb_refl.
  - destruct (String.eqb_spec k' k) as [->|Hne]; simpl.
    + by rewrite String.eqb_refl.
    + by destruct (String.eqb_spec k' k).
Qed.

Lemma get_set_ne o k k' v :
  k <> k' -> JsObject.get (JsObject.set o k v) k' = JsObject.get o k'.
Proof.
  intros Hne. induction o as [|[k0 v0] o IH]; simpl.
  - by destruct (String.eqb_spec k k').
  - destruct (String.eqb_spec k0 k) as [->|Hne0]; simpl.
    + by destruct (String.eqb_spec k k').
    + by rewrite IH.
Qed.

Lemma get_None o k : JsObject.get o k = None <-> k ∉ map fst o.
Proof.
  induction o as [|[k' v'] o IH]; simpl.
  - rewrite elem_of_nil. tauto.
  - rewrite not_elem_of_cons.
    destruct (String.eqb_spec k' k) as [->|Hne]; [split; [done|tauto]|].
    rewrite IH. split; [split; [congruence|done]|tauto].
Qed.

Lemma keys_set_new o k v :
  JsObject.get o k = None -> JsObject.set o k v = o ++ [(k, v)].
Proof.
  induction o as [|[k' v'] o IH]; simpl; [done|].
  destruct (String.eqb_spec k' k); [done|]. intros Hk. by rewrite IH.
Qed.

Lemma keys_set_old o k v :
  is_Some (JsObject.get o k) -> map fst (JsObject.set o k v) = map fst o.
Proof.
  induction o as [|[k' v'] o IH]; simpl.
  - by intros [? ?].
  - destruct (String.eqb_spec k' k); [done|]. intros Hk. simpl. by rewrite IH.
Qed.

Lemma insert_by_index_perm (n : N) (kv : string * V) (l : list (N * (string * V))) :
  JsObject.insert_by_index n kv l ≡ₚ (n, kv) :: l.
Proof.
  induction l as [|[m kv'] l IH]; simpl; [done|].
  destruct (n <? m)%N; [done|]. rewrite IH. apply Permutation_swap.
Qed.

Lemma entries_perm o : JsObject.entries o ≡ₚ o.
Proof.
  unfold JsObject.entries. induction o as [|kv o IH]; simpl; [done|].
  destruct (JsObject.array_index (fst kv)).
  - rewrite insert_by_index_perm. simpl. by rewrite IH.
  - rewrite <- Permutation_middle. by rewrite IH.
Qed.

Lemma length_values o : length (JsObject.values o) = length o.
Proof.
  unfold JsObject.values. rewrite length_map. apply Permutation_length, entries_perm.
Qed.
End JsObject_facts.

Lemma lookup_plain {V} (o : JsObject.t V) (k : string) :
  JsObject.is_inherited k = false ->
  JsObject.lookup o k =
  match JsObject.get o k with
  | Some v => JsObject.Own v
  | None => JsObject.Undefined
  end.
Proof. intros Hk. unfold JsObject.lookup. by rewrite Hk. Qed.

Lemma lookup_inherited {V} (o : JsObject.t V) (k : string) :
  JsObject.is_inherited k = true -> JsObject.get o k = None ->
  JsObject.lookup o k = JsObject.Inherited.
Proof. intros Hk Hget. unfold JsObject.lookup. by rewrite Hget, Hk. Qed.

Lemma plain_quadrants_cons (b : InputBlip) (bs : list InputBlip) :
  plain_quadrants (b :: bs) = true <->
  names_inherited b = false /\ plain_quadrants bs = true.
Proof.
  unfold plain_quadrants. cbn [forallb]. rewrite andb_true_iff, negb_true_iff. tauto.
Qed.

Lemma plain_quadrants_Forall (blips : list InputBlip) :
  plain_quadrants blips = true <-> Forall (fun b => names_inherited b = false) blips.
Proof.
  induction blips as [|b bs IH]; [split; [constructor|done]|].
  rewrite plain_quadrants_cons, Forall_cons, IH. tauto.
Qed.

Lemma plain_quadrants_first (blips : list InputBlip) :
  plain_quadrants blips = true <-> first_inherited blips = None.
Proof.
  unfold first_inherited.
  induction blips as [|b bs IH]; [done|]. rewrite plain_quadrants_cons. cbn [find].
  destruct (names_inherited b); [split; [intros [? _]|]; done|]. rewrite IH. tauto.
Qed.

Lemma first_inherited_names (blips : list InputBlip) (b : InputBlip) :
  first_inherited blips = Some b -> names_inherited b = true /\ b ∈ blips.
Proof.
  unfold first_inherited. intros H. apply find_some in H as [Hin Hb].
  split; [done|]. by apply list_elem_of_In.
Qed.

Lemma first_inherited_split (blips : list InputBlip) (b : InputBlip) :
  first_inherited blips = Some b ->
  exists post, blips = before_inherited blips ++ b :: post.
Proof.
  unfold first_inherited. induction blips as [|b0 bs IH]; [done|]. cbn [find before_inherited].
  destruct (names_inherited b0).
  - intros [= ->]. by exists bs.
  - intros H. destruct (IH H) as [post Hpost]. exists post. simpl. by rewrite <- Hpost.
Qed.

Lemma plain_before_inherited (blips : list InputBlip) :
  plain_quadrants (before_inherited blips) = true.
Proof.
  induction blips as [|b bs IH]; [done|]. cbn [before_inherited].
  destruct (names_inherited b) eqn:Hb; [done|]. by apply plain_quadrants_cons.
Qed.

Lemma before_inherited_plain (blips : list InputBlip) :
  plain_quadrants blips = true -> before_inherited blips = blips.
Proof.
  induction blips as [|b bs IH]; [done|]. rewrite plain_quadrants_cons. intros [Hb Hbs].
  cbn [before_inherited]. rewrite Hb. by rewrite IH.
Qed.

Lemma ensure_quadrant_plain (o : JsObject.t Quadrant) (k : string) :
  JsObject.is_inherited k = false ->
  ensure_quadrant o k =
  match JsObject.get o k with
  | None => JsObject.set o k (mkQuadrant (Js.capitalize k) [])
  | Some _ => o
  end.
Proof.
  intros Hk. unfold ensure_quadrant. rewrite lookup_plain by done.
  by destruct (JsObject.get o k).
Qed.

Lemma quadrant_events_plain (o : JsObject.t Quadrant) (b : InputBlip) :
  names_inherited b = false ->
  quadrant_events o b =
  match JsObject.get o (quadrant b) with
  | None => [NewQuadrant (Js.capitalize (quadrant b))]
  | Some _ => []
  end.
Proof.
  intros Hk. unfold quadrant_events. rewrite lookup_plain by done.
  by destruct (JsObject.get o (quadrant b)).
Qed.

Lemma ensure_quadrant_get (o : JsObject.t Quadrant) (k : string) :
  JsObject.is_inherited k = false ->
  JsObject.get (ensure_quadrant o k) k =
  Some (default (mkQuadrant (Js.capitalize k) []) (JsObject.get o k)).
Proof.
  intros Hk. rewrite ensure_quadrant_plain by done.
  destruct (JsObject.get o k) eqn:Hget; simpl; [done|].
  apply get_set_eq.
Qed.

Lemma add_blip_run (rm : gmap string Ring) (o : JsObject.t Quadrant) (b : InputBlip) :
  names_inherited b = false ->
  add_blip rm o b =
  Run (quadrant_events o b ++ [NewBlip (to_Blip rm b)]) (Normal (group_blip rm o b)).
Proof.
  intros Hb. unfold add_blip, group_blip.
  rewrite ensure_quadrant_get, quadrant_events_plain, ensure_quadrant_plain by done.
  rewrite lookup_plain by done.
  destruct (JsObject.get o (quadrant b)) eqn:Hk; simpl.
  - unfold mbind, Eff_bind; simpl. rewrite lookup_plain by done. rewrite Hk. reflexivity.
  - unfold mbind, Eff_bind; simpl. rewrite lookup_plain by done.
    rewrite get_set_eq. reflexivity.
Qed.

Lemma add_blip_blocked (rm : gmap string Ring) (o : JsObject.t Quadrant) (b : InputBlip) :
  names_inherited b = true -> JsObject.get o (quadrant b) = None ->
  add_blip rm o b = Run [NewBlip (to_Blip rm b)] (Throw add_is_not_a_function).
Proof.
  intros Hb Hget. unfold add_blip. rewrite lookup_inherited by done.
  unfold mbind, Eff_bind; simpl. rewrite lookup_inherited by done. reflexivity.
Qed.


Lemma foldM_add_blip (rm : gmap string Ring) (blips : list InputBlip) (o : JsObject.t Quadrant) :
  plain_quadrants blips = true ->
  foldM (add_blip rm) blips o =
  Run (blip_events rm o blips) (Normal (fold_left (group_blip rm) blips o)).
Proof.
  revert o. induction blips as [|b bs IH]; intros o Hp; cbn [foldM fold_left blip_events].
  - reflexivity.
  - apply plain_quadrants_cons in Hp as [Hb Hbs].
    rewrite add_blip_run, bind_Normal, IH by done. cbn [trace outcome].
    by rewrite <- app_assoc.
Qed.

(** What the second loop leaves under a key: the quadrant that was there,
    or a new one named by the capitalized key, extended by the Blips of the
    rows whose [quadrant] is that very key, in row order. *)
Lemma group_blips_get (rm : gmap string Ring) (blips : list InputBlip)
    (o : JsObject.t Quadrant) (k : string) :
  plain_quadrants blips = true ->
  JsObject.get (fold_left (group_blip rm) blips o) k =
  match JsObject.get o k with
  | Some q =>
      Some (mkQuadrant (Quadrant_name q)
              (Quadrant_blips q ++ map (to_Blip rm) (filter (fun b => quadrant b = k) blips)))
  | None =>
      if bool_decide (k ∈ map quadrant blips)
      then Some (mkQuadrant (Js.capitalize k)
                   (map (to_Blip rm) (filter (fun b => quadrant b = k) blips)))
      else None
  end.
Proof.
  revert o. induction blips as [|b bs IH]; intros o Hp; cbn [fold_left].
  - rewrite filter_nil. simpl. destruct (JsObject.get o k) as [[n bl]|]; simpl; [|done].
    by rewrite app_nil_r.
  - apply plain_quadrants_cons in Hp as [Hb Hbs].
    rewrite IH by done. unfold group_blip. rewrite ensure_quadrant_get by done.
    destruct (decide (quadrant b = k)) as [<-|Hne].
    + rewrite get_set_eq. rewrite filter_cons_True by done.
      destruct (JsObject.get o (quadrant b)) as [q|] eqn:Hq; simpl.
      * by rewrite <- app_assoc.
      * rewrite bool_decide_eq_true_2 by (simpl; apply elem_of_cons; by left). done.
    + rewrite get_set_ne by done. rewrite filter_cons_False by done.
      rewrite ensure_quadrant_plain by done.
      destruct (JsObject.get o (quadrant b)) eqn:Hq.
      * destruct (JsObject.get o k); [done|].
        apply (f_equal (fun c : bool => if c then _ else _)).
        apply bool_decide_ext. simpl. rewrite elem_of_cons.
        split; [by right|intros [?|?]; [congruence|done]].
      * rewrite get_set_ne by done.
        destruct (JsObject.get o k); [done|].
        apply (f_equal (fun c : bool => if c then _ else _)).
        apply bool_decide_ext. simpl. rewrite elem_of_cons.
        split; [by right|intros [?|?]; [congruence|done]].
Qed.

Lemma all_blips_app (o1 o2 : JsObject.t Quadrant) :
  all_blips (o1 ++ o2) = all_blips o1 ++ all_blips o2.
Proof. unfold all_blips. by rewrite map_app, concat_app. Qed.

Lemma all_blips_set (o : JsObject.t Quadrant) (k : string) (q : Quadrant) (b : Blip) :
  JsObject.get o k = Some q ->
  all_blips (JsObject.set o k (Quadrant_add q b)) ≡ₚ b :: all_blips o.
Proof.
  induction o as [|[k' q'] o IH]; simpl; [done|].
  destruct (String.eqb_spec k' k) as [->|Hne].
  - intros [= ->]. unfold all_blips; simpl.
    rewrite <- app_assoc. simpl. by rewrite <- Permutation_middle.
  - intros Hk. specialize (IH Hk). unfold all_blips in *; simpl. rewrite IH.
    by rewrite <- Permutation_middle.
Qed.

Lemma all_blips_group (rm : gmap string Ring) (o : JsObject.t Quadrant) (b : InputBlip) :
  names_inherited b = false ->
  all_blips (group_blip rm o b) ≡ₚ to_Blip rm b :: all_blips o.
Proof.
  intros Hb. unfold group_blip. rewrite ensure_quadrant_get by done.
  rewrite all_blips_set by (by apply ensure_quadrant_get).
  constructor. rewrite ensure_quadrant_plain by done.
  destruct (JsObject.get o (quadrant b)) eqn:Hq; [done|].
  rewrite keys_set_new by done. rewrite all_blips_app. unfold all_blips at 2; simpl.
  by rewrite app_nil_r.
Qed.

Lemma all_blips_fold (rm : gmap string Ring) (blips : list InputBlip) (o : JsObject.t Quadrant) :
  plain_quadrants blips = true ->
  all_blips (fold_left (group_blip rm) blips o) ≡ₚ all_blips o ++ map (to_Blip rm) blips.
Proof.
  revert o. induction blips as [|b bs IH]; intros o Hp; cbn [fold_left map].
  - by rewrite app_nil_r.
  - apply plain_quadrants_cons in Hp as [Hb Hbs].
    rewrite IH, all_blips_group by done. by rewrite <- Permutation_middle.
Qed.

Lemma keys_group (rm : gmap string Ring) (o : JsObject.t Quadrant) (b : InputBlip) :
  names_inherited b = false ->
  map fst (group_blip rm o b) =
  map fst o ++ (if bool_decide (quadrant b ∈ map fst o) then [] else [quadrant b]).
Proof.
  intros Hb. unfold group_blip. rewrite ensure_quadrant_get by done.
  rewrite keys_set_old by (rewrite ensure_quadrant_get by done; eauto).
  rewrite ensure_quadrant_plain by done. destruct (JsObject.get o (quadrant b)) eqn:Hq.
  - rewrite bool_decide_eq_true_2; [by rewrite app_nil_r|].
    destruct (decide (quadrant b ∈ map fst o)) as [|Hn]; [done|].
    apply get_None in Hn. congruence.
  - rewrite keys_set_new by done. rewrite map_app. simpl.
    rewrite bool_decide_eq_false_2; [done|]. by apply get_None.
Qed.

Lemma NoDup_keys_fold (rm : gmap string Ring) (blips : list InputBlip) (o : JsObject.t Quadrant) :
  plain_quadrants blips = true ->
  NoDup (map fst o) -> NoDup (map fst (fold_left (group_blip rm) blips o)).
Proof.
  revert o. induction blips as [|b bs IH]; intros o Hp Hnd; cbn [fold_left]; [done|].
  apply plain_quadrants_cons in Hp as [Hb Hbs].
  apply IH; [done|]. rewrite keys_group by done. case_bool_decide as Hin.
  - by rewrite app_nil_r.
  - apply NoDup_app. split; [done|]. split; [|apply NoDup_singleton].
    intros k Hk ->%list_elem_of_singleton. done.
Qed.

Lemma length_quadrants_of (blips : list InputBlip) :
  plain_quadrants blips = true ->
  length (quadrants_of blips) = distinct_count (map quadrant blips).
Proof.
  intros Hp. unfold quadrants_of, distinct_count.
  rewrite <- (length_map fst). apply Permutation_length, NoDup_Permutation.
  - apply NoDup_keys_fold; [done|]. constructor.
  - apply NoDup_remove_dups.
  - intros k. rewrite elem_of_remove_dups.
    pose proof (group_blips_get (ringMap_of blips) blips JsObject.empty k Hp) as Hk.
    simpl in Hk. case_bool_decide as Hin.
    + split; [done|]. intros _.
      destruct (decide (k ∈ map fst (fold_left (group_blip (ringMap_of blips)) blips JsObject.empty)))
        as [|Hn]; [done|].
      apply get_None in Hn. congruence.
    + apply get_None in Hk. tauto.
Qed.

Lemma foldM_addQuadrant (qs : list Quadrant) (r : Radar) :
  foldM (fun radar q => mret (Radar_addQuadrant radar q)) qs r =
  Run [] (Normal (mkRadar (Radar_quadrants r ++ qs) (Radar_alternatives r)
                          (Radar_currentSheet r))).
Proof.
  revert r. induction qs as [|q qs IH]; intros r; cbn [foldM].
  - rewrite app_nil_r. by destruct r.
  - rewrite ret_bind, IH. simpl. by rewrite <- app_assoc.
Qed.

Lemma foldM_addAlternative (names : list string) (r : Radar) :
  foldM (fun radar sheetName => mret (Radar_addAlternative radar sheetName)) names r =
  Run [] (Normal (mkRadar (Radar_quadrants r) (Radar_alternatives r ++ names)
                          (Radar_currentSheet r))).
Proof.
  revert r. induction names as [|n names IH]; intros r; cbn [foldM].
  - rewrite app_nil_r. by destruct r.
  - rewrite ret_bind, IH. simpl. by rewrite <- app_assoc.
Qed.

Lemma new_Radar_run : new_Radar = Run [NewRadar] (Normal Radar_empty).
Proof. reflexivity. Qed.

Lemma plotRadar_ok (h : Z) (title : string) (blips : list InputBlip)
    (cur : option string) (alts : list string) :
  length (rings_of blips) <= maxRings ->
  plain_quadrants blips = true ->
  plotRadar h title blips cur (Some alts) =
  Run ([SetDocumentTitle (display_title title); RemoveLoading]
         ++ ring_events 0 (rings_of blips)
         ++ blip_events (ringMap_of blips) JsObject.empty blips
         ++ [NewRadar; GraphingRadarPlot (plot_size h) (radar_of blips cur alts)])
      (Normal tt).
Proof.
  intros Hlen Hp. unfold plotRadar. fold (display_title title) (plot_size h) (rings_of blips).
  unfold emit at 1 2. rewrite !bind_prefixed.
  rewrite foldM_indexed_add_ring_ok, bind_prefixed by done. fold (ringMap_of blips).
  rewrite foldM_add_blip, bind_prefixed by done. fold (quadrants_of blips).
  rewrite new_Radar_run, bind_prefixed.
  rewrite foldM_addQuadrant, bind_prefixed.
  rewrite !orb_true_r. cbv iota.
  rewrite foldM_addAlternative, bind_prefixed, ret_bind. unfold emit.
  rewrite !prefixed_Run. reflexivity.
Qed.

Lemma plotRadar_undefined_alternatives (h : Z) (title : string)
    (blips : list InputBlip) (cur : option string) :
  length (rings_of blips) <= maxRings ->
  plain_quadrants blips = true ->
  plotRadar h title blips cur None =
  Run ([SetDocumentTitle (display_title title); RemoveLoading]
         ++ ring_events 0 (rings_of blips)
         ++ blip_events (ringMap_of blips) JsObject.empty blips
         ++ [NewRadar])
      (Throw (TypeError "alternativeRadars is undefined")).
Proof.
  intros Hlen Hp. unfold plotRadar. fold (display_title title) (plot_size h) (rings_of blips).
  unfold emit at 1 2. rewrite !bind_prefixed.
  rewrite foldM_indexed_add_ring_ok, bind_prefixed by done. fold (ringMap_of blips).
  rewrite foldM_add_blip, bind_prefixed by done. fold (quadrants_of blips).
  rewrite new_Radar_run, bind_prefixed.
  rewrite foldM_addQuadrant, bind_prefixed.
  rewrite !orb_true_r. cbv iota. unfold throw. rewrite bind_Throw.
  rewrite !prefixed_Run. rewrite app_nil_r. reflexivity.
Qed.

Lemma keys_group_plain (rm : gmap string Ring) (o : JsObject.t Quadrant) (b : InputBlip) :
  names_inherited b = false ->
  Forall (fun k => JsObject.is_inherited k = false) (map fst o) ->
  Forall (fun k => JsObject.is_inherited k = false) (map fst (group_blip rm o b)).
Proof.
  intros Hb Ho. rewrite keys_group by done. apply Forall_app. split; [done|].
  case_bool_decide; repeat constructor. exact Hb.
Qed.

Lemma get_inherited (o : JsObject.t Quadrant) (k : string) :
  Forall (fun k => JsObject.is_inherited k = false) (map fst o) ->
  JsObject.is_inherited k = true -> JsObject.get o k = None.
Proof.
  intros Ho Hk. apply get_None. intros Hin.
  rewrite Forall_forall in Ho. specialize (Ho k Hin). congruence.
Qed.

(** The second loop stops at the first row whose quadrant string names an
    inherited property: the Blip of that row is the last thing created. *)
Lemma foldM_add_blip_blocked (rm : gmap string Ring) (blips : list InputBlip)
    (o : JsObject.t Quadrant) (b : InputBlip) :
  Forall (fun k => JsObject.is_inherited k = false) (map fst o) ->
  first_inherited blips = Some b ->
  foldM (add_blip rm) blips o =
  Run (blip_events rm o (before_inherited blips) ++ [NewBlip (to_Blip rm b)])
      (Throw add_is_not_a_function).
Proof.
  unfold first_inherited.
  revert o. induction blips as [|b0 bs IH]; intros o Ho; [done|].
  cbn [find before_inherited foldM]. destruct (names_inherited b0) eqn:Hb0.
  - intros [= ->]. rewrite add_blip_blocked by (done || by apply get_inherited).
    by rewrite bind_Throw.
  - intros Hb. rewrite add_blip_run, bind_Normal by done.
    rewrite (IH _ (keys_group_plain rm o b0 Hb0 Ho) Hb). cbn [trace outcome blip_events].
    by rewrite <- !app_assoc.
Qed.

Lemma plotRadar_blocked (h : Z) (title : string) (blips : list InputBlip)
    (cur : option string) (alts : option (list string)) (b : InputBlip) :
  length (rings_of blips) <= maxRings ->
  first_inherited blips = Some b ->
  plotRadar h title blips cur alts =
  Run ([SetDocumentTitle (display_title title); RemoveLoading]
         ++ ring_events 0 (rings_of blips)
         ++ blip_events (ringMap_of blips) JsObject.empty (before_inherited blips)
         ++ [NewBlip (to_Blip (ringMap_of blips) b)])
      (Throw add_is_not_a_function).
Proof.
  intros Hlen Hb. unfold plotRadar. fold (display_title title) (plot_size h) (rings_of blips).
  unfold emit at 1 2. rewrite !bind_prefixed.
  rewrite foldM_indexed_add_ring_ok, bind_prefixed by done. fold (ringMap_of blips).
  rewrite (foldM_add_blip_blocked _ _ _ b) by (done || constructor).
  rewrite bind_Throw. rewrite !prefixed_Run. reflexivity.
Qed.

Lemma plotRadar_too_many (h : Z) (title : string) (blips : list InputBlip)
    (cur : option string) (alts : option (list string)) :
  maxRings < length (rings_of blips) ->
  plotRadar h title blips cur alts =
  Run ([SetDocumentTitle (display_title title); RemoveLoading]
         ++ ring_events 0 (take maxRings (rings_of blips)))
      (Throw (MalformedDataError TOO_MANY_RINGS)).
Proof.
  intros Hlen. unfold plotRadar. fold (display_title title) (plot_size h) (rings_of blips).
  unfold emit at 1 2. rewrite !bind_prefixed.
  rewrite foldM_indexed_add_ring_throw, bind_Throw by (simpl; lia).
  rewrite !prefixed_Run. reflexivity.
Qed.

(** Every run of [plotRadar] is one of four: it fails on a fifth ring
    name, it fails at the first row whose quadrant string names an
    inherited property, it fails for want of the alternative sheets, or it
    ends normally. *)
Lemma plotRadar_cases (h : Z) (title : string) (blips : list InputBlip)
    (cur : option string) (alts : option (list string)) :
  (maxRings < length (rings_of blips)
   /\ plotRadar h title blips cur alts
      = Run ([SetDocumentTitle (display_title title); RemoveLoading]
               ++ ring_events 0 (take maxRings (rings_of blips)))
            (Throw (MalformedDataError TOO_MANY_RINGS)))
  \/ (length (rings_of blips) <= maxRings
      /\ exists b, first_inherited blips = Some b
      /\ plotRadar h title blips cur alts
         = Run ([SetDocumentTitle (display_title title); RemoveLoading]
                  ++ ring_events 0 (rings_of blips)
                  ++ blip_events (ringMap_of blips) JsObject.empty (before_inherited blips)
                  ++ [NewBlip (to_Blip (ringMap_of blips) b)])
               (Throw add_is_not_a_function))
  \/ (length (rings_of blips) <= maxRings /\ plain_quadrants blips = true /\ alts = None
      /\ plotRadar h title blips cur alts
         = Run ([SetDocumentTitle (display_title title); RemoveLoading]
                  ++ ring_events 0 (rings_of blips)
                  ++ blip_events (ringMap_of blips) JsObject.empty blips
                  ++ [NewRadar])
               (Throw (TypeError "alternativeRadars is undefined")))
  \/ (length (rings_of blips) <= maxRings /\ plain_quadrants blips = true
      /\ exists names, alts = Some names
      /\ plotRadar h title blips cur alts
         = Run ([SetDocumentTitle (display_title title); RemoveLoading]
                  ++ ring_events 0 (rings_of blips)
                  ++ blip_events (ringMap_of blips) JsObject.empty blips
                  ++ [NewRadar; GraphingRadarPlot (plot_size h) (radar_of blips cur names)])
               (Normal tt)).
Proof.
  destruct (decide (length (rings_of blips) <= maxRings)) as [Hle|Hgt].
  - destruct (first_inherited blips) as [b|] eqn:Hfirst.
    + right. left. split; [done|]. exists b. split; [done|]. by apply plotRadar_blocked.
    + apply plain_quadrants_first in Hfirst. destruct alts as [names|].
      * right. right. right. split; [done|]. split; [done|]. exists names.
        split; [done|]. by apply plotRadar_ok.
      * right. right. left. split; [done|]. split; [done|]. split; [done|].
        by apply plotRadar_undefined_alternatives.
  - left. split; [lia|]. apply plotRadar_too_many. lia.
Qed.

(** ** The rings of a radar *)

Lemma length_rings_of (blips : list InputBlip) :
  length (rings_of blips) = distinct_count (map ring blips).
Proof. apply length_uniqBy. Qed.

Lemma NoDup_rings_of (blips : list InputBlip) : NoDup (rings_of blips).
Proof. apply NoDup_uniqBy_from. Qed.

Lemma elem_of_rings_of (blips : list InputBlip) (n : string) :
  n ∈ rings_of blips <-> n ∈ map ring blips.
Proof.
  unfold rings_of, uniqBy. rewrite elem_of_uniqBy_from, elem_of_nil. tauto.
Qed.

Lemma ringMap_of_lookup (blips : list InputBlip) (n : string) (r : Ring) :
  ringMap_of blips !! n = Some r <->
  exists j, rings_of blips !! j = Some n /\ r = mkRing n j.
Proof.
  unfold ringMap_of. split.
  - intros Hr. destruct (decide (n ∈ rings_of blips)) as [Hin|Hn].
    + apply list_elem_of_lookup in Hin as [j Hj]. exists j. split; [done|].
      rewrite (ring_map_from_lookup 0 j) in Hr by (done || apply NoDup_rings_of).
      by injection Hr as <-.
    + rewrite ring_map_from_notin in Hr by done. by rewrite lookup_empty in Hr.
  - intros (j & Hj & ->).
    by rewrite (ring_map_from_lookup 0 j) by (done || apply NoDup_rings_of).
Qed.

Lemma ringMap_of_row (blips : list InputBlip) (b : InputBlip) :
  b ∈ blips ->
  exists j, rings_of blips !! j = Some (ring b)
            /\ ringMap_of blips !! ring b = Some (mkRing (ring b) j).
Proof.
  intros Hb.
  assert (ring b ∈ rings_of blips) as Hin.
  { apply elem_of_rings_of. rewrite map_fmap. by apply list_elem_of_fmap_2. }
  apply list_elem_of_lookup in Hin as [j Hj]. exists j. split; [done|].
  apply ringMap_of_lookup. eauto.
Qed.

(** The rank of a ring name: the number of distinct names before its first
    occurrence is its position among the distinct names. *)
Lemma rings_of_first_occurrence (pre post : list InputBlip) (b : InputBlip) :
  ring b ∉ map ring pre ->
  rings_of (pre ++ b :: post) !! distinct_count (map ring pre) = Some (ring b).
Proof.
  intros Hnew. rewrite <- length_rings_of. unfold rings_of, uniqBy.
  rewrite uniqBy_from_app, map_app. cbn [uniqBy_from app].
  rewrite bool_decide_eq_false_2.
  - cbn [map]. by rewrite list_lookup_middle.
  - intros Hin. by apply (elem_of_uniqBy_from ring [] pre) in Hin as [? _].
Qed.

Lemma Radar_blips_radar_of (blips : list InputBlip) (cur : option string)
    (alts : list string) :
  plain_quadrants blips = true ->
  Radar_blips (radar_of blips cur alts) ≡ₚ map (to_Blip (ringMap_of blips)) blips.
Proof.
  intros Hp. unfold Radar_blips, radar_of, JsObject.values. cbn [Radar_quadrants].
  rewrite map_map. change (fun x : string * Quadrant => Quadrant_blips (snd x))
    with (fun kv : string * Quadrant => Quadrant_blips (snd kv)).
  rewrite !map_fmap. rewrite (entries_perm (quadrants_of blips)).
  rewrite <- !map_fmap. fold (all_blips (quadrants_of blips)).
  unfold quadrants_of. rewrite all_blips_fold by done. done.
Qed.

Lemma Radar_rings_radar_of (blips : list InputBlip) (cur : option string)
    (alts : list string) (r : Ring) :
  plain_quadrants blips = true ->
  r ∈ Radar_rings (radar_of blips cur alts) <->
  exists j n, rings_of blips !! j = Some n /\ r = mkRing n j.
Proof.
  intros Hp. unfold Radar_rings. rewrite elem_of_remove_dups, Radar_blips_radar_of by done.
  rewrite list_elem_of_omap. split.
  - intros (bl & Hbl & Hr). rewrite map_fmap in Hbl.
    apply list_elem_of_fmap in Hbl as (b & -> & Hb).
    unfold to_Blip in Hr. cbn [Blip_ring] in Hr. apply ringMap_of_lookup in Hr as (j & ? & ?). eauto.
  - intros (j & n & Hj & ->).
    assert (n ∈ map ring blips) as Hn.
    { apply elem_of_rings_of. by eapply list_elem_of_lookup_2. }
    rewrite map_fmap in Hn. apply list_elem_of_fmap in Hn as (b & -> & Hb).
    exists (to_Blip (ringMap_of blips) b). split.
    + rewrite map_fmap. by apply list_elem_of_fmap_2.
    + unfold to_Blip. cbn [Blip_ring]. apply ringMap_of_lookup. eauto.
Qed.

Lemma length_Radar_rings (blips : list InputBlip) (cur : option string)
    (alts : list string) :
  plain_quadrants blips = true ->
  length (Radar_rings (radar_of blips cur alts)) = distinct_count (map ring blips).
Proof.
  intros Hp. rewrite <- length_rings_of.
  rewrite <- (length_imap (fun j n => mkRing n j) (rings_of blips)).
  apply Permutation_length, NoDup_Permutation.
  - apply NoDup_remove_dups.
  - apply NoDup_alt. intros i j r Hi Hj.
    apply list_lookup_imap_Some in Hi as (n & Hi & ->).
    apply list_lookup_imap_Some in Hj as (n' & Hj & Heq).
    by injection Heq.
  - intros r. rewrite Radar_rings_radar_of by done. split.
    + intros (j & n & Hj & ->). apply list_elem_of_lookup. exists j.
      apply list_lookup_imap_Some. eauto.
    + intros (j & Hj)%list_elem_of_lookup.
      apply list_lookup_imap_Some in Hj as (n & Hj & ->). eauto.
Qed.

Lemma ring_events_build_nothing (i : nat) (rings : list string) :
  Forall (fun ev => builds_model ev = false) (ring_events i rings).
Proof.
  revert i. induction rings as [|n rs IH]; intros i; cbn [ring_events]; constructor; auto.
Qed.

Lemma ring_events_hand_nothing (i : nat) (rings : list string) :
  Forall (fun ev => hands_over ev = false) (ring_events i rings).
Proof.
  revert i. induction rings as [|n rs IH]; intros i; cbn [ring_events]; constructor; auto.
Qed.

Lemma blip_events_hand_nothing (rm : gmap string Ring) (o : JsObject.t Quadrant)
    (blips : list InputBlip) :
  Forall (fun ev => hands_over ev = false) (blip_events rm o blips).
Proof.
  revert o. induction blips as [|b bs IH]; intros o; cbn [blip_events]; [constructor|].
  apply Forall_app. split.
  - unfold quadrant_events. destruct (JsObject.lookup o (quadrant b)); repeat constructor.
  - constructor; [reflexivity|]. apply IH.
Qed.

(** C1. A sequence of blips with five or more distinct ring names makes
    [plotRadar] fail with MalformedDataError (too many rings), and until
    then no Quadrant, Blip or Radar has been created and nothing was handed
    to the graphing radar: the events of the run create rings only. *)
Theorem plotRadar_rejects_fifth_ring (h : Z) (title : string)
    (blips : list InputBlip) (cur : option string) (alts : option (list string)) :
  5 <= distinct_count (map ring blips) ->
  outcome (plotRadar h title blips cur alts) = Throw (MalformedDataError TOO_MANY_RINGS)
  /\ Forall (fun ev => builds_model ev = false) (trace (plotRadar h title blips cur alts)).
Proof.
  intros Hfive. rewrite plotRadar_too_many by (rewrite length_rings_of; unfold maxRings; lia).
  split; [reflexivity|]. cbn [trace app].
  repeat (constructor; [reflexivity|]). apply ring_events_build_nothing.
Qed.

Lemma plotRadar_rejects_fifth_ring_witness :
  5 <= distinct_count (map ring five_rings)
  /\ outcome (plotRadar 900 "Radar" five_rings (Some "Sheet1") (Some ["Sheet1"]))
     = Throw (MalformedDataError TOO_MANY_RINGS).
Proof.
  split; [vm_compute; lia|].
  apply (plotRadar_rejects_fifth_ring 900 "Radar" five_rings). vm_compute; lia.
Defined.

(** C4. With at most four distinct ring names a Radar with the counts of
    the input is not produced for every input. A quadrant string may name a
    property that the plain object [quadrants] inherits; [constructor] is
    one. For the row that carries it [quadrants[blip.quadrant]] is truthy
    from the start, no Quadrant is created, and the call of [add] on the
    inherited value fails: with three ring names in three rows [plotRadar]
    throws a TypeError at the second row, the third row is never reached,
    and no Radar is created or handed over. *)
Theorem plotRadar_fails_on_inherited_quadrant :
  distinct_count (map ring inherited_quadrant) = 3
  /\ plotRadar 900 "Radar" inherited_quadrant (Some "Q1") (Some ["Q1"])
     = Run [ SetDocumentTitle "Radar"; RemoveLoading;
             NewRing (mkRing "Adopt" 0); NewRing (mkRing "Trial" 1);
             NewRing (mkRing "Hold" 2);
             NewQuadrant "Tools";
             NewBlip (mkBlip "a" (Some (mkRing "Adopt" 0)) true "" "");
             NewBlip (mkBlip "b" (Some (mkRing "Trial" 1)) false "" "") ]
           (Throw (TypeError "quadrants[blip.quadrant].add is not a function"))
  /\ JsObject.lookup (JsObject.empty : JsObject.t Quadrant) "constructor"
     = JsObject.Inherited.
Proof. split; [|split]; vm_compute; reflexivity. Qed.

(** ** The [isNew] flag *)








(** ** Identity of quadrants and rings *)







(** ** The guards of [plotRadar] *)



(** ** The ingestion callbacks *)

Lemma plotErrorMessage_normal (e : Error) : outcome (plotErrorMessage e) = Normal tt.
Proof. by destruct e. Qed.

Lemma plotErrorMessage_shows (e : Error) :
  exists message detail, Display (ErrorPage message detail) ∈ trace (plotErrorMessage e).
Proof.
  destruct e; eexists _, _; cbn; repeat first [by left | right].
Qed.

(** A body wrapped in [try ... catch (exception) { plotErrorMessage(exception) }]
    ends normally; when the body throws, an error page is shown. *)
Lemma try_catch_plotErrorMessage (body : Eff unit) :
  outcome (try_catch body plotErrorMessage) = Normal tt
  /\ (forall e, outcome body = Throw e ->
        exists message detail,
          Display (ErrorPage message detail) ∈ trace (try_catch body plotErrorMessage)).
Proof.
  unfold try_catch. destruct body as [t [[]|e]]; cbn [outcome trace].
  - split; [done|]. intros e He. discriminate He.
  - split; [apply plotErrorMessage_normal|]. intros e' _.
    destruct (plotErrorMessage_shows e) as (message & detail & Hshow).
    exists message, detail. apply elem_of_app. by right.
Qed.

Lemma createBlips_never_throws (env : Env) (sheetName : option string)
    (tabletop : Tabletop) :
  outcome (createBlips env sheetName tabletop) = Normal tt.
Proof. apply try_catch_plotErrorMessage. Qed.

Lemma CSVDocument_createBlips_never_throws (env : Env) (url : string) (data : CsvData) :
  outcome (CSVDocument_createBlips env url data) = Normal tt.
Proof. apply try_catch_plotErrorMessage. Qed.

Lemma verifyContent_run (columnNames : list string) :
  ContentValidator.verifyContent columnNames
  = if bool_decide (columnNames = [])
    then Run [] (Throw (MalformedDataError MISSING_CONTENT))
    else Run [] (Normal tt).
Proof.
  unfold ContentValidator.verifyContent. destruct columnNames; reflexivity.
Qed.

Lemma verifyHeaders_run (columnNames : list string) :
  ContentValidator.verifyHeaders columnNames
  = if bool_decide (Forall (fun field => field ∈ columnNames) ContentValidator.required)
    then Run [] (Normal tt)
    else Run [] (Throw (MalformedDataError MISSING_HEADERS)).
Proof.
  unfold ContentValidator.verifyHeaders.
  destruct (forallb _ _) eqn:Hall.
  - rewrite bool_decide_eq_true_2; [done|].
    apply Forall_forall. intros field Hin.
    rewrite forallb_forall in Hall. eapply bool_decide_eq_true_1.
    apply Hall. by apply list_elem_of_In.
  - rewrite bool_decide_eq_false_2; [done|].
    intros Hall'. apply not_true_iff_false in Hall. apply Hall.
    apply forallb_forall. intros field Hin. apply bool_decide_eq_true_2.
    rewrite Forall_forall in Hall'. apply Hall'. by apply list_elem_of_In.
Qed.

Lemma foldM_constant (v : Eff unit) (l : list (list string)) :
  l <> [] -> trace v = [] ->
  foldM (fun (_ : unit) (_ : list string) => v) l tt = v.
Proof.
  intros Hl Hv. destruct v as [t [[]|e]]; cbn [trace] in Hv; subst t.
  - clear Hl. induction l as [|x l IH]; cbn [foldM]; [done|].
    by rewrite bind_prefixed, IH.
  - destruct l as [|x l]; [done|]. reflexivity.
Qed.

(** The validation loop of the protected sheet checks the first row on
    every round, so it amounts to one check of the first row. *)
Lemma validation_loop (header : list string) (rows : list (list string)) :
  foldM (fun (_ : unit) (value : list string) =>
           match (header :: rows) !! 0 with
           | Some columnNames =>
               ContentValidator.verifyContent columnNames;;
               ContentValidator.verifyHeaders columnNames
           | None => throw (TypeError "columnNames is undefined")
           end) (header :: rows) tt
  = (ContentValidator.verifyContent header;; ContentValidator.verifyHeaders header).
Proof.
  change (foldM (fun (_ : unit) (_ : list string) =>
                   ContentValidator.verifyContent header;;
                   ContentValidator.verifyHeaders header) (header :: rows) tt
          = (ContentValidator.verifyContent header;;
             ContentValidator.verifyHeaders header)).
  apply foldM_constant; [done|].
  rewrite verifyContent_run, verifyHeaders_run.
  repeat case_bool_decide; reflexivity.
Qed.

Lemma createBlipsForProtectedSheet_run (env : Env) (sheetName : option string)
    (documentTitle : string) (header : list string) (rows : list (list string))
    (sheetNames : list string) :
  createBlipsForProtectedSheet env sheetName documentTitle (header :: rows) sheetNames
  = (ContentValidator.verifyContent header;;
     ContentValidator.verifyHeaders header;;
     plotRadar (innerHeight env)
       (sheet_title documentTitle (default_sheetName sheetName sheetNames))
       (protected_blips header rows)
       (default_sheetName sheetName sheetNames) (Some sheetNames)).
Proof.
  unfold createBlipsForProtectedSheet. rewrite validation_loop.
  rewrite verifyContent_run, verifyHeaders_run.
  repeat case_bool_decide; reflexivity.
Qed.

(** C3. The callback of the protected sheet has no catch of its own: with
    five distinct ring names in the fetched rows the exception of
    [plotRadar] leaves [createBlipsForProtectedSheet] and the callers in the
    factory, and no error page is shown. *)
Theorem protected_callback_lets_exception_escape (env : Env) :
  outcome (createBlipsForProtectedSheet env None "Radar" five_ring_values ["Q1"])
  = Throw (MalformedDataError TOO_MANY_RINGS)
  /\ (forall page : Page,
        Display page ∉ trace (createBlipsForProtectedSheet env None "Radar"
                             five_ring_values ["Q1"]))
  /\ outcome (GoogleSheet_build
                (sample_env "" "" (Some (OtherError "denied")) true
                            (SheetData "Radar" five_ring_values ["Q1"]))
                "sheet" None)
     = Throw (MalformedDataError TOO_MANY_RINGS).
Proof.
  split; [|split].
  - vm_compute. reflexivity.
  - intros page Hin.
    assert (trace (createBlipsForProtectedSheet env None "Radar" five_ring_values ["Q1"])
            = [SetDocumentTitle "Radar - Q1"; RemoveLoading;
               NewRing (mkRing "Adopt" 0); NewRing (mkRing "Trial" 1);
               NewRing (mkRing "Assess" 2); NewRing (mkRing "Hold" 3)]) as Htrace.
    { vm_compute. reflexivity. }
    rewrite Htrace in Hin. apply list_elem_of_In in Hin. simpl in Hin.
    repeat (destruct Hin as [Heq | Hin]; [discriminate Heq|]). destruct Hin.
  - vm_compute. reflexivity.
Qed.

(** ** The spreadsheet flow *)

Lemma GoogleSheet_build_not_found (env : Env) (sheetReference : string)
    (sheetName : option string) (message : string) :
  Sheet_validate env sheetReference = Some (SheetNotFoundError message) ->
  GoogleSheet_build env sheetReference sheetName
  = Run [SheetValidate sheetReference; SetDocumentTitle default_title;
         RemoveLoading; Display (ErrorPage message None)] (Normal tt).
Proof. intros Hv. unfold GoogleSheet_build. rewrite Hv. reflexivity. Qed.

Lemma GoogleSheet_build_authenticates (env : Env) (sheetReference : string)
    (sheetName : option string) (error : Error) :
  Sheet_validate env sheetReference = Some error ->
  is_SheetNotFoundError error = false ->
  GoogleSheet_build env sheetReference sheetName
  = prefixed [SheetValidate sheetReference]
      (GoogleSheet_authenticate env sheetReference sheetName false (mret tt)).
Proof. intros Hv He. unfold GoogleSheet_build. rewrite Hv, He. reflexivity. Qed.

Lemma GoogleSheet_authenticate_run (env : Env) (sheetReference : string)
    (sheetName : option string) (force : bool) :
  GoogleSheet_authenticate env sheetReference sheetName force (mret tt)
  = if GoogleAuth_login env force
    then prefixed [LoadGoogle; Login force; ProcessSheetResponse sheetReference sheetName]
           match Sheet_processSheetResponse env sheetReference sheetName with
           | SheetData documentTitle values sheetNames =>
               createBlipsForProtectedSheet env sheetName documentTitle values sheetNames
           | SheetError error =>
               if bool_decide (status error = Some 403%Z)
               then plotUnauthorizedErrorMessage
               else plotErrorMessage error
           end
    else Run [LoadGoogle; Login force] (Normal tt).
Proof.
  unfold GoogleSheet_authenticate, emit. rewrite !bind_prefixed.
  destruct (GoogleAuth_login env force); [|reflexivity].
  rewrite ?bind_prefixed, ret_bind. reflexivity.
Qed.

(** C2. The flow of a spreadsheet starts with the anonymous read. When it
    fails with SheetNotFoundError the not-found page is shown and the flow
    ends without a login. Any other failure starts the authentication; when
    the login calls back, the protected read follows: its rows go to the
    ingestion callback, a response of status 403 leads to the unauthorized
    page, and every other error to the error page of [plotErrorMessage],
    which for an error that is neither malformed data nor sheet-not-found
    is the generic message, after the error was logged. *)
Theorem source_resolution (env : Env) (sheetReference : string)
    (sheetName : option string) (error : Error) :
  Sheet_validate env sheetReference = Some error ->
  (forall message, error = SheetNotFoundError message ->
     GoogleSheet_build env sheetReference sheetName
     = Run [SheetValidate sheetReference; SetDocumentTitle default_title;
            RemoveLoading; Display (ErrorPage message None)] (Normal tt)
     /\ forall force, Login force ∉ trace (GoogleSheet_build env sheetReference sheetName))
  /\ (is_SheetNotFoundError error = false ->
      (GoogleAuth_login env false = false ->
         GoogleSheet_build env sheetReference sheetName
         = Run [SheetValidate sheetReference; LoadGoogle; Login false] (Normal tt))
      /\ (GoogleAuth_login env false = true ->
          (forall documentTitle values sheetNames,
             Sheet_processSheetResponse env sheetReference sheetName
             = SheetData documentTitle values sheetNames ->
             GoogleSheet_build env sheetReference sheetName
             = prefixed [SheetValidate sheetReference; LoadGoogle; Login false;
                         ProcessSheetResponse sheetReference sheetName]
                 (createBlipsForProtectedSheet env sheetName documentTitle values
                    sheetNames))
          /\ (forall response,
                Sheet_processSheetResponse env sheetReference sheetName
                = SheetError response ->
                status response = Some 403%Z ->
                GoogleSheet_build env sheetReference sheetName
                = Run [SheetValidate sheetReference; LoadGoogle; Login false;
                       ProcessSheetResponse sheetReference sheetName;
                       SetDocumentTitle default_title; RemoveLoading;
                       Display UnauthorizedPage] (Normal tt))
          /\ (forall response,
                Sheet_processSheetResponse env sheetReference sheetName
                = SheetError response ->
                status response <> Some 403%Z ->
                GoogleSheet_build env sheetReference sheetName
                = prefixed [SheetValidate sheetReference; LoadGoogle; Login false;
                            ProcessSheetResponse sheetReference sheetName]
                    (plotErrorMessage response)
                /\ (is_MalformedDataError response = false ->
                    is_SheetNotFoundError response = false ->
                    plotErrorMessage response
                    = Run [SetDocumentTitle default_title; RemoveLoading;
                           ConsoleError response;
                           Display (ErrorPage not_found_message None)] (Normal tt))))).
Proof.
  intros Hv. split.
  - intros message ->.
    rewrite (GoogleSheet_build_not_found env sheetReference sheetName message) by done.
    split; [reflexivity|]. intros force Hin. cbn [trace] in Hin.
    apply list_elem_of_In in Hin. simpl in Hin.
    repeat (destruct Hin as [Heq | Hin]; [discriminate Heq|]). destruct Hin.
  - intros Hother.
    rewrite (GoogleSheet_build_authenticates env sheetReference sheetName error) by done.
    rewrite GoogleSheet_authenticate_run. split.
    + intros ->. reflexivity.
    + intros ->. split; [|split].
      * intros documentTitle values sheetNames ->. reflexivity.
      * intros response -> Hs. rewrite bool_decide_eq_true_2 by done. reflexivity.
      * intros response -> Hs. rewrite bool_decide_eq_false_2 by done.
        split; [reflexivity|]. intros Hm Hn. by destruct response.
Qed.

Lemma source_resolution_witness :
  GoogleSheet_build
    (sample_env "" "" (Some (OtherError "denied")) true (SheetError (ResponseError 403)))
    "sheet" None
  = Run [SheetValidate "sheet"; LoadGoogle; Login false;
         ProcessSheetResponse "sheet" None;
         SetDocumentTitle default_title; RemoveLoading;
         Display UnauthorizedPage] (Normal tt).
Proof.
  destruct (source_resolution
              (sample_env "" "" (Some (OtherError "denied")) true
                          (SheetError (ResponseError 403)))
              "sheet" None (OtherError "denied") eq_refl) as [_ Hflow].
  destruct (Hflow eq_refl) as [_ Hlogin].
  destruct (Hlogin eq_refl) as (_ & Hforbidden & _).
  exact (Hforbidden (ResponseError 403) eq_refl eq_refl).
Defined.

(** ** The locator *)

Lemma endsWith_tail (s suffix : string) (c : ascii) :
  Js.endsWith s (String c suffix) = true -> Js.endsWith s suffix = true.
Proof.
  induction s as [|c' s IH]; cbn [Js.endsWith].
  - rewrite orb_false_r. intros H%String.eqb_eq. discriminate H.
  - intros [Heq%String.eqb_eq | Hs]%orb_true_iff.
    + injection Heq as -> ->. apply orb_true_iff. right.
      destruct suffix; cbn [Js.endsWith]; by rewrite String.eqb_refl.
    + apply orb_true_iff. right. by apply IH.
Qed.

Lemma GoogleSheetInput_build_run (env : Env) (domainName : option string)
    (queryParams : JsObject.t string) :
  DomainName (Uri.substring1 (search env)) = mret domainName ->
  queryParams_of env = Normal queryParams ->
  GoogleSheetInput_build env
  = ((if Js.truthy domainName then sheetId_endsWith_csv queryParams else mret false)
     ≫= fun csv : bool =>
     if csv
     then init;; CSVDocument_build env (Js.to_str (JsObject.get queryParams "sheetId"))
     else if Js.truthy domainName
             && Js.endsWith (Js.to_str domainName) "google.com"
             && Js.truthy (JsObject.get queryParams "sheetId")
     then
       emit (ConsoleLog (JsObject.get queryParams "sheetName"));;
       init;;
       GoogleSheet_build env (Js.to_str (JsObject.get queryParams "sheetId"))
                         (JsObject.get queryParams "sheetName")
     else setDocumentTitle;; plotForm).
Proof.
  intros Hd Hq. unfold GoogleSheetInput_build. rewrite Hd, Hq.
  rewrite ret_bind. change (Run [] (Normal queryParams)) with (mret (M := Eff) queryParams).
  by rewrite ret_bind.
Qed.

(** C5, as stated, fails: a [sheetId] that ends with [.csv] is not enough
    for the source to be read as a CSV file. *)
Lemma csv_without_domain_counterexample :
  ~ (forall (env : Env) (queryParams : JsObject.t string) (sheetId : string),
       queryParams_of env = Normal queryParams ->
       JsObject.get queryParams "sheetId" = Some sheetId ->
       Js.endsWith sheetId ".csv" = true ->
       GoogleSheetInput_build env = (init;; CSVDocument_build env sheetId)).
Proof.
  intros H.
  specialize (H relative_csv_env [("sheetId", "data.csv")] "data.csv"
                eq_refl eq_refl eq_refl).
  vm_compute in H. discriminate H.
Qed.

(** C5, amended. The locator extracts a domain name from the query string
    and reads the parameters; what follows holds when neither of the two
    throws. When a domain name was found and the [sheetId] ends with
    [.csv], the source is a CSV file; this check comes first, so it wins
    over the provider check. When it does not apply (the [sheetId] does not
    end with [csv]), the domain name ends with [google.com] and the
    [sheetId] is not empty, the source is a spreadsheet. When no domain name
    was found, as with an empty query string, the form is shown. With an
    empty query string and a location that nowhere holds [sheetId], neither
    of the two can throw, and the form is shown. *)
Theorem locator_classification (env : Env) :
  (forall (domainName : option string) (queryParams : JsObject.t string),
     DomainName (Uri.substring1 (search env)) = mret domainName ->
     queryParams_of env = Normal queryParams ->
     (forall sheetId,
        Js.truthy domainName = true ->
        JsObject.get queryParams "sheetId" = Some sheetId ->
        Js.endsWith sheetId ".csv" = true ->
        GoogleSheetInput_build env = (init;; CSVDocument_build env sheetId))
     /\ (forall domain sheetId,
           domainName = Some domain ->
           Js.endsWith domain "google.com" = true ->
           JsObject.get queryParams "sheetId" = Some sheetId ->
           sheetId <> "" ->
           Js.endsWith sheetId "csv" = false ->
           GoogleSheetInput_build env
           = (emit (ConsoleLog (JsObject.get queryParams "sheetName"));;
              init;;
              GoogleSheet_build env sheetId (JsObject.get queryParams "sheetName")))
     /\ (Js.truthy domainName = false ->
         GoogleSheetInput_build env = (setDocumentTitle;; plotForm))
     /\ (search env = "" -> domainName = None))
  /\ (search env = "" -> Uri.match_sheetId (href env) = None ->
      GoogleSheetInput_build env = (setDocumentTitle;; plotForm)).
Proof.
  split.
  - intros domainName queryParams Hd Hq.
    rewrite (GoogleSheetInput_build_run env domainName queryParams) by done.
    split; [|split; [|split]].
    + intros sheetId Htruthy Hid Hcsv. rewrite Htruthy.
      unfold sheetId_endsWith_csv. rewrite Hid.
      rewrite (endsWith_tail sheetId "csv" ".") by done.
      by rewrite ret_bind.
    + intros domain sheetId -> Hgoogle Hid Hne Hcsv.
      assert (Js.truthy (Some domain) = true) as Htruthy.
      { cbn [Js.truthy]. destruct domain; [discriminate Hgoogle|reflexivity]. }
      rewrite Htruthy. unfold sheetId_endsWith_csv. rewrite Hid, Hcsv, ret_bind.
      cbn [Js.to_str Js.truthy andb]. rewrite Hgoogle.
      destruct (String.eqb_spec sheetId ""); [done|]. reflexivity.
    + intros Hfalsy. rewrite Hfalsy. by rewrite ret_bind.
    + intros Hempty. rewrite Hempty in Hd. vm_compute in Hd. by injection Hd.
  - intros Hempty Hnone.
    rewrite (GoogleSheetInput_build_run env None JsObject.empty).
    + reflexivity.
    + by rewrite Hempty.
    + unfold queryParams_of. by rewrite Hnone.
Qed.

Lemma locator_classification_witness :
  GoogleSheetInput_build hosted_csv_env
  = (init;; CSVDocument_build hosted_csv_env "https://example.com/data.csv")
  /\ GoogleSheetInput_build google_env
     = (emit (ConsoleLog (Some "Q1"));;
        init;;
        GoogleSheet_build google_env "https://docs.google.com/spreadsheets/d/abc123/edit"
                          (Some "Q1"))
  /\ GoogleSheetInput_build empty_env = (setDocumentTitle;; plotForm)
  /\ GoogleSheetInput_build public_env = (setDocumentTitle;; plotForm).
Proof.
  split; [|split; [|split]].
  - destruct (proj1 (locator_classification hosted_csv_env) (Some "example.com")
                [("sheetId", "https://example.com/data.csv")] eq_refl eq_refl)
      as (Hcsv & _).
    exact (Hcsv "https://example.com/data.csv" eq_refl eq_refl eq_refl).
  - destruct (proj1 (locator_classification google_env) (Some "docs.google.com")
                [("sheetId", "https://docs.google.com/spreadsheets/d/abc123/edit");
                 ("sheetName", "Q1")] eq_refl eq_refl)
      as (_ & Hgoogle & _).
    refine (Hgoogle "docs.google.com" "https://docs.google.com/spreadsheets/d/abc123/edit"
                    eq_refl eq_refl eq_refl _ eq_refl).
    discriminate.
  - destruct (proj1 (locator_classification empty_env) None [] eq_refl eq_refl)
      as (_ & _ & Hform & _).
    exact (Hform eq_refl).
  - exact (proj2 (locator_classification public_env) eq_refl eq_refl).
Defined.

(** C6. When a domain name is found in the query string and there is no
    [sheetId] parameter, the locator throws a TypeError before anything is
    shown: the first test reads [queryParams.sheetId.endsWith] without the
    guard that the second test has. *)
Theorem locator_throws_without_sheetId (env : Env) (domain : string)
    (queryParams : JsObject.t string) :
  DomainName (Uri.substring1 (search env)) = mret (Some domain) ->
  domain <> "" ->
  queryParams_of env = Normal queryParams ->
  JsObject.get queryParams "sheetId" = None ->
  GoogleSheetInput_build env
  = Run [] (Throw (TypeError "queryParams.sheetId is undefined")).
Proof.
  intros Hd Hne Hq Hid.
  rewrite (GoogleSheetInput_build_run env (Some domain) queryParams) by done.
  cbn [Js.truthy]. destruct (String.eqb_spec domain ""); [done|]. cbn [negb].
  unfold sheetId_endsWith_csv. rewrite Hid. reflexivity.
Qed.

Lemma locator_throws_without_sheetId_witness :
  GoogleSheetInput_build no_sheetId_env
  = Run [] (Throw (TypeError "queryParams.sheetId is undefined")).
Proof.
  apply (locator_throws_without_sheetId no_sheetId_env "example.com" []).
  - reflexivity.
  - discriminate.
  - reflexivity.
  - reflexivity.
Defined.

Lemma locator_throws_on_malformed_escape :
  GoogleSheetInput_build malformed_sheetId_env = Run [] (Throw URIError).
Proof. reflexivity. Qed.

(** * Further properties of the factory *)

(** ** Strings *)

Lemma endsWith_spec (s suffix : string) :
  Js.endsWith s suffix = true <-> exists p, s = p +:+ suffix.
Proof.
  split.
  - induction s as [|c s IH]; cbn [Js.endsWith].
    + rewrite orb_false_r. intros ->%String.eqb_eq. by exists "".
    + intros [->%String.eqb_eq | Hs]%orb_true_iff; [by exists ""|].
      destruct (IH Hs) as [p ->]. by exists (String c p).
  - intros [p ->]. induction p as [|c p IH].
    + change ("" +:+ suffix) with suffix.
      destruct suffix; cbn [Js.endsWith]; by rewrite String.eqb_refl.
    + change (String c p +:+ suffix) with (String c (p +:+ suffix)).
      cbn [Js.endsWith]. rewrite IH. apply orb_true_r.
Qed.

Lemma substring0_append (p s : string) :
  Js.substring0 (String.length p) (p +:+ s) = p.
Proof.
  unfold Js.substring0. induction p as [|c p IH].
  - by destruct s.
  - change (String c p +:+ s) with (String c (p +:+ s)).
    cbn [String.length String.substring]. by rewrite IH.
Qed.

Lemma length_append (p s : string) :
  String.length (p +:+ s) = String.length p + String.length s.
Proof.
  induction p as [|c p IH]; [done|].
  change (String c p +:+ s) with (String c (p +:+ s)).
  cbn [String.length]. by rewrite IH.
Qed.

Lemma display_title_csv (p : string) : display_title (p +:+ ".csv") = p.
Proof.
  unfold display_title.
  rewrite (proj2 (endsWith_spec (p +:+ ".csv") ".csv")) by eauto.
  rewrite length_append. cbn [String.length].
  replace (String.length p + 4 - 4) with (String.length p) by lia.
  apply substring0_append.
Qed.

Lemma display_title_other (title : string) :
  (forall p, title <> p +:+ ".csv") -> display_title title = title.
Proof.
  intros Hno. unfold display_title.
  destruct (Js.endsWith title ".csv") eqn:Hend; [|done].
  apply endsWith_spec in Hend as [p ->]. by destruct (Hno p).
Qed.

(** ** The runs of [plotRadar] *)

Lemma plotRadar_sets_title_parts (h : Z) (title : string) (blips : list InputBlip)
    (cur : option string) (alts : option (list string)) :
  exists rest,
    trace (plotRadar h title blips cur alts)
    = SetDocumentTitle (display_title title) :: RemoveLoading :: rest.
Proof.
  destruct (plotRadar_cases h title blips cur alts)
    as [[_ ->] | [(_ & b & _ & ->) | [(_ & _ & _ & ->) | (_ & _ & names & _ & ->)]]];
    cbn [trace app]; eauto.
Qed.

(** X1. Whatever becomes of the call, [plotRadar] first sets the document
    title and removes the loading page. The title set is the given title
    without a trailing [.csv]; a title that does not end with [.csv] is set
    unchanged. *)
Theorem plotRadar_sets_title_first (h : Z) (blips : list InputBlip)
    (cur : option string) (alts : option (list string)) :
  (forall p : string, exists rest,
     trace (plotRadar h (p +:+ ".csv") blips cur alts)
     = SetDocumentTitle p :: RemoveLoading :: rest)
  /\ (forall title : string,
        (forall p, title <> p +:+ ".csv") ->
        exists rest,
          trace (plotRadar h title blips cur alts)
          = SetDocumentTitle title :: RemoveLoading :: rest).
Proof.
  pose proof (fun title => plotRadar_sets_title_parts h title blips cur alts) as Hhead.
  split.
  - intros p. destruct (Hhead (p +:+ ".csv")) as [rest Hrest].
    exists rest. by rewrite Hrest, display_title_csv.
  - intros title Hno. destruct (Hhead title) as [rest Hrest].
    exists rest. by rewrite Hrest, display_title_other.
Qed.

(** ** What the runs of [plotRadar] create *)

Lemma created_rings_ring_events (i : nat) (rings : list string) :
  map Ring_name (created_rings (ring_events i rings)) = rings
  /\ map Ring_order (created_rings (ring_events i rings)) = seq i (length rings).
Proof.
  revert i. induction rings as [|n rs IH]; intros i; [done|].
  destruct (IH (S i)) as [Hn Ho]. cbn [ring_events length seq].
  change (created_rings (NewRing (mkRing n i) :: ring_events (S i) rs))
    with (mkRing n i :: created_rings (ring_events (S i) rs)).
  cbn [map Ring_name Ring_order]. by rewrite Hn, Ho.
Qed.

Lemma created_rings_blip_events (rm : gmap string Ring) (o : JsObject.t Quadrant)
    (blips : list InputBlip) :
  created_rings (blip_events rm o blips) = [].
Proof.
  revert o. induction blips as [|b bs IH]; intros o; [done|].
  cbn [blip_events]. unfold created_rings in *. rewrite omap_app. simpl.
  rewrite IH. unfold quadrant_events. by destruct (JsObject.lookup o (quadrant b)).
Qed.

Lemma created_blips_ring_events (i : nat) (rings : list string) :
  created_blips (ring_events i rings) = [].
Proof. revert i. induction rings as [|n rs IH]; intros i; [done|]. apply IH. Qed.

Lemma created_blips_blip_events (rm : gmap string Ring) (o : JsObject.t Quadrant)
    (blips : list InputBlip) :
  created_blips (blip_events rm o blips) = map (to_Blip rm) blips.
Proof.
  revert o. induction blips as [|b bs IH]; intros o; [done|].
  cbn [blip_events map]. unfold created_blips in *. rewrite omap_app. simpl.
  rewrite IH. unfold quadrant_events. by destruct (JsObject.lookup o (quadrant b)).
Qed.



Lemma handed_over_ring_events (i : nat) (rings : list string) :
  handed_over (ring_events i rings) = [].
Proof. revert i. induction rings as [|n rs IH]; intros i; [done|]. apply IH. Qed.

Lemma handed_over_blip_events (rm : gmap string Ring) (o : JsObject.t Quadrant)
    (blips : list InputBlip) :
  handed_over (blip_events rm o blips) = [].
Proof.
  revert o. induction blips as [|b bs IH]; intros o; [done|].
  cbn [blip_events]. unfold handed_over in *. rewrite omap_app. simpl.
  rewrite IH. unfold quadrant_events. by destruct (JsObject.lookup o (quadrant b)).
Qed.

Lemma error_pages_ring_events (i : nat) (rings : list string) :
  error_pages (ring_events i rings) = [].
Proof. revert i. induction rings as [|n rs IH]; intros i; [done|]. apply IH. Qed.

Lemma error_pages_blip_events (rm : gmap string Ring) (o : JsObject.t Quadrant)
    (blips : list InputBlip) :
  error_pages (blip_events rm o blips) = [].
Proof.
  revert o. induction blips as [|b bs IH]; intros o; [done|].
  cbn [blip_events]. unfold error_pages in *. rewrite omap_app. simpl.
  rewrite IH. unfold quadrant_events. by destruct (JsObject.lookup o (quadrant b)).
Qed.

Lemma remote_ring_events (i : nat) (rings : list string) :
  Forall (fun ev => is_remote ev = false) (ring_events i rings).
Proof.
  revert i. induction rings as [|n rs IH]; intros i; cbn [ring_events]; constructor; auto.
Qed.

Lemma remote_blip_events (rm : gmap string Ring) (o : JsObject.t Quadrant)
    (blips : list InputBlip) :
  Forall (fun ev => is_remote ev = false) (blip_events rm o blips).
Proof.
  revert o. induction blips as [|b bs IH]; intros o; cbn [blip_events]; [constructor|].
  apply Forall_app. split.
  - unfold quadrant_events. destruct (JsObject.lookup o (quadrant b)); repeat constructor.
  - constructor; [reflexivity|]. apply IH.
Qed.

Lemma omap_cons_eq {A B : Type} (f : A -> option B) (x : A) (l : list A) :
  omap f (x :: l) = match f x with Some y => y :: omap f l | None => omap f l end.
Proof. reflexivity. Qed.

(** Splits the projection [proj] of a trace of [plotRadar] along its parts. *)
Ltac split_trace proj :=
  unfold proj; cbn [app];
  repeat first [rewrite omap_app | rewrite omap_cons_eq; cbv beta iota];
  repeat match goal with
         | |- context [omap ?f (ring_events ?i ?l)] =>
             change (omap f (ring_events i l)) with (proj (ring_events i l))
         | |- context [omap ?f (blip_events ?rm ?o ?l)] =>
             change (omap f (blip_events rm o l)) with (proj (blip_events rm o l))
         end;
  change (omap _ (@nil Event)) with (@nil Event) in |- * || idtac.

Lemma plot_size_max (h : Z) : plot_size h = Z.max 620 (h - 133).
Proof. unfold plot_size. destruct (Z.ltb_spec (h - 133) 620); lia. Qed.

(** The hand-overs of a run of [plotRadar]: none, or the one Radar built
    from the rows. *)
Lemma plotRadar_handed_over (h : Z) (title : string) (blips : list InputBlip)
    (cur : option string) (alts : option (list string)) :
  match outcome (plotRadar h title blips cur alts) with
  | Normal _ =>
      exists names, alts = Some names
        /\ length (rings_of blips) <= maxRings
        /\ plain_quadrants blips = true
        /\ handed_over (trace (plotRadar h title blips cur alts))
           = [(plot_size h, radar_of blips cur names)]
  | Throw _ => handed_over (trace (plotRadar h title blips cur alts)) = []
  end
  /\ error_pages (trace (plotRadar h title blips cur alts)) = [].
Proof.
  destruct (plotRadar_cases h title blips cur alts)
    as [[_ ->] | [(_ & b & _ & ->) | [(_ & _ & _ & ->) | (Hle & Hp & names & -> & ->)]]];
    cbn [outcome trace].
  - split; [split_trace handed_over | split_trace error_pages].
    + by rewrite handed_over_ring_events.
    + by rewrite error_pages_ring_events.
  - split; [split_trace handed_over | split_trace error_pages].
    + by rewrite handed_over_ring_events, handed_over_blip_events.
    + by rewrite error_pages_ring_events, error_pages_blip_events.
  - split; [split_trace handed_over | split_trace error_pages].
    + by rewrite handed_over_ring_events, handed_over_blip_events.
    + by rewrite error_pages_ring_events, error_pages_blip_events.
  - split.
    + exists names. split; [done|]. split; [done|]. split; [done|].
      split_trace handed_over.
      by rewrite handed_over_ring_events, handed_over_blip_events.
    + split_trace error_pages.
      by rewrite error_pages_ring_events, error_pages_blip_events.
Qed.

(** X2. A run of [plotRadar] hands over at most one Radar. The plot is as
    large as the window height less 133, and never smaller than 620; the
    Radar carries the given current sheet and the given alternative sheets. *)
Theorem plotRadar_hands_over_once (h : Z) (title : string) (blips : list InputBlip)
    (cur : option string) (alts : option (list string)) :
  length (handed_over (trace (plotRadar h title blips cur alts))) <= 1
  /\ forall (size : Z) (radar : Radar),
       (size, radar) ∈ handed_over (trace (plotRadar h title blips cur alts)) ->
       size = Z.max 620 (h - 133)
       /\ Radar_currentSheet radar = cur
       /\ alts = Some (Radar_alternatives radar).
Proof.
  destruct (plotRadar_handed_over h title blips cur alts) as [Hh _].
  destruct (outcome (plotRadar h title blips cur alts)).
  - destruct Hh as (names & -> & _ & _ & ->). split; [done|].
    intros size radar [= -> ->]%list_elem_of_singleton.
    split; [|done]. apply plot_size_max.
  - rewrite Hh. split; [cbn; lia|]. intros size radar Hin. by apply elem_of_nil in Hin.
Qed.

(** X3. The Rings that a run of [plotRadar] creates are named by the first
    four distinct ring names of the rows, in order of first occurrence, and
    their orders count up from 0: also the run that fails on a fifth ring
    name has created four Rings before. *)
Theorem plotRadar_creates_rings_in_order (h : Z) (title : string)
    (blips : list InputBlip) (cur : option string) (alts : option (list string)) :
  map Ring_name (created_rings (trace (plotRadar h title blips cur alts)))
  = take 4 (map ring (uniqBy blips ring))
  /\ map Ring_order (created_rings (trace (plotRadar h title blips cur alts)))
     = seq 0 (min 4 (distinct_count (map ring blips))).
Proof.
  fold (rings_of blips). rewrite <- length_rings_of.
  destruct (plotRadar_cases h title blips cur alts)
    as [[Hgt ->] | [(Hle & b & _ & ->) | [(Hle & _ & _ & ->) | (Hle & _ & names & _ & ->)]]];
    cbn [trace]; split_trace created_rings;
    rewrite ?created_rings_blip_events, ?app_nil_r.
  - destruct (created_rings_ring_events 0 (take maxRings (rings_of blips))) as [-> ->].
    split; [done|]. rewrite length_take. unfold maxRings. done.
  - destruct (created_rings_ring_events 0 (rings_of blips)) as [-> ->].
    unfold maxRings in Hle. rewrite take_ge by done.
    split; [done|]. f_equal. lia.
  - destruct (created_rings_ring_events 0 (rings_of blips)) as [-> ->].
    unfold maxRings in Hle. rewrite take_ge by done.
    split; [done|]. f_equal. lia.
  - destruct (created_rings_ring_events 0 (rings_of blips)) as [-> ->].
    unfold maxRings in Hle. rewrite take_ge by done.
    split; [done|]. f_equal. lia.
Qed.
(** X4. The outcome of [plotRadar] depends on three things only. More than
    four distinct ring names make it fail with MalformedDataError, whatever
    the other arguments are; otherwise a row whose quadrant string names a
    property inherited from [Object.prototype] makes it fail with a
    TypeError; otherwise it fails with a TypeError when the alternative
    sheets are undefined, and ends normally when they are given. *)
Theorem plotRadar_outcome (h : Z) (title : string) (blips : list InputBlip)
    (cur : option string) (alts : option (list string)) :
  outcome (plotRadar h title blips cur alts)
  = if decide (distinct_count (map ring blips) <= 4)
    then if forallb (fun b => negb (bool_decide (quadrant b ∈ JsObject.inherited))) blips
         then match alts with
              | Some _ => Normal tt
              | None => Throw (TypeError "alternativeRadars is undefined")
              end
         else Throw (TypeError "quadrants[blip.quadrant].add is not a function")
    else Throw (MalformedDataError TOO_MANY_RINGS).
Proof.
  rewrite <- length_rings_of.
  change (forallb (fun b => negb (bool_decide (quadrant b ∈ JsObject.inherited))) blips)
    with (plain_quadrants blips).
  destruct (plotRadar_cases h title blips cur alts)
    as [[Hgt ->] | [(Hle & b & Hb & ->) | [(Hle & Hp & -> & ->) | (Hle & Hp & names & -> & ->)]]];
    unfold maxRings in *; cbn [outcome]; destruct (decide _); try lia.
  - done.
  - destruct (plain_quadrants blips) eqn:Hp; [|done].
    apply plain_quadrants_first in Hp. congruence.
  - by rewrite Hp.
  - by rewrite Hp.
Qed.

Lemma reached_plain (blips : list InputBlip) :
  plain_quadrants blips = true -> reached blips = blips.
Proof.
  intros Hp. unfold reached. rewrite before_inherited_plain by done.
  apply plain_quadrants_first in Hp. rewrite Hp. apply app_nil_r.
Qed.

Lemma reached_rows (blips : list InputBlip) (row : InputBlip) :
  row ∈ reached blips -> row ∈ blips.
Proof.
  unfold reached. destruct (first_inherited blips) as [b|] eqn:Hfirst.
  - destruct (first_inherited_split blips b Hfirst) as [post Hpost].
    intros Hin. rewrite Hpost. rewrite elem_of_app, elem_of_cons.
    apply elem_of_app in Hin as [Hin | Hin%list_elem_of_singleton]; tauto.
  - rewrite app_nil_r. rewrite before_inherited_plain; [done|].
    by apply plain_quadrants_first.
Qed.

Lemma plotRadar_created_blips (h : Z) (title : string) (blips : list InputBlip)
    (cur : option string) (alts : option (list string)) :
  created_blips (trace (plotRadar h title blips cur alts))
  = if decide (distinct_count (map ring blips) <= 4)
    then map (to_Blip (ringMap_of blips)) (reached blips)
    else [].
Proof.
  rewrite <- length_rings_of.
  destruct (plotRadar_cases h title blips cur alts)
    as [[Hgt ->] | [(Hle & b & Hb & ->) | [(Hle & Hp & _ & ->) | (Hle & Hp & names & _ & ->)]]];
    unfold maxRings in *; cbn [trace]; split_trace created_blips;
    rewrite ?created_blips_ring_events, ?created_blips_blip_events, ?app_nil_r;
    destruct (decide _); try lia; try done.
  - unfold reached. rewrite Hb, map_app. reflexivity.
  - by rewrite reached_plain.
  - by rewrite reached_plain.
Qed.

Lemma ring_events_elem (i j : nat) (rings : list string) (n : string) :
  rings !! j = Some n -> NewRing (mkRing n (i + j)) ∈ ring_events i rings.
Proof.
  revert i j. induction rings as [|n' rs IH]; intros i j Hj; [done|].
  destruct j as [|j]; cbn [ring_events].
  - injection Hj as ->. rewrite Nat.add_0_r. by left.
  - right. replace (i + S j) with (S i + j) by lia. by apply IH.
Qed.

(** X5. With at most four distinct ring names [plotRadar] creates one Blip
    for every row that the second loop reaches, in row order, whether or not
    the call ends normally: the Blip has the name, the topic and the
    description of its row, and its ring is a Ring created in the same run,
    named by the ring string of the row. The loop reaches every row when no
    quadrant string names an inherited property; else it reaches the first
    row with such a string and none after it. *)
Theorem plotRadar_creates_blips_in_row_order (h : Z) (title : string)
    (blips : list InputBlip) (cur : option string) (alts : option (list string)) :
  distinct_count (map ring blips) <= 4 ->
  Forall2 (fun (row : InputBlip) (b : Blip) =>
             Blip_name b = name row
             /\ Blip_topic b = topic row
             /\ Blip_description b = description row
             /\ exists r, Blip_ring b = Some r
                          /\ Ring_name r = ring row
                          /\ r ∈ created_rings (trace (plotRadar h title blips cur alts)))
          (reached blips) (created_blips (trace (plotRadar h title blips cur alts)))
  /\ (plain_quadrants blips = true -> reached blips = blips)
  /\ (forall b, first_inherited blips = Some b ->
        exists post, blips = reached blips ++ post
                     /\ reached blips = before_inherited blips ++ [b]).
Proof.
  intros Hfour. split; [|split; [apply reached_plain|]].
  - rewrite plotRadar_created_blips.
    destruct (decide _) as [_|]; [|lia].
    assert (forall r, (exists j n, rings_of blips !! j = Some n /\ r = mkRing n j) ->
                      r ∈ created_rings (trace (plotRadar h title blips cur alts))) as Hcreated.
    { intros r (j & n & Hj & ->).
      pose proof (ring_events_elem 0 j (rings_of blips) n Hj) as Hev.
      unfold created_rings. apply list_elem_of_omap. exists (NewRing (mkRing n j)).
      split; [|done].
      rewrite <- length_rings_of in Hfour.
      destruct (plotRadar_cases h title blips cur alts)
        as [[Hgt _] | [(_ & b & _ & ->) | [(_ & _ & _ & ->) | (_ & _ & names & _ & ->)]]];
        [unfold maxRings in Hgt; lia| | |]; cbn [trace];
        rewrite !elem_of_app; right; by left. }
    apply Forall2_fmap_r, Forall_Forall2_diag, Forall_forall.
    intros row Hrow%reached_rows. unfold to_Blip.
    cbn [Blip_name Blip_topic Blip_description Blip_ring].
    repeat split.
    destruct (ringMap_of_row blips row Hrow) as (j & Hj & Hlookup).
    exists (mkRing (ring row) j). split; [done|]. split; [done|].
    apply Hcreated. eauto.
  - intros b Hb. destruct (first_inherited_split blips b Hb) as [post Hpost].
    exists post. unfold reached. rewrite Hb. split; [|done].
    rewrite <- app_assoc. exact Hpost.
Qed.

Lemma plotRadar_creates_blips_in_row_order_witness :
  distinct_count (map ring inherited_quadrant) <= 4
  /\ reached inherited_quadrant
     = [sample_blip "a" "tools" "Adopt" "true"; sample_blip "b" "constructor" "Trial" "false"]
  /\ Forall2 (fun (row : InputBlip) (b : Blip) =>
                Blip_name b = name row
                /\ Blip_topic b = topic row
                /\ Blip_description b = description row
                /\ exists r, Blip_ring b = Some r
                             /\ Ring_name r = ring row
                             /\ r ∈ created_rings
                                     (trace (plotRadar 900 "Radar" inherited_quadrant
                                               (Some "Q1") None)))
             (reached inherited_quadrant)
             (created_blips (trace (plotRadar 900 "Radar" inherited_quadrant (Some "Q1") None))).
Proof.
  assert (distinct_count (map ring inherited_quadrant) <= 4) as Hfour by (vm_compute; lia).
  split; [exact Hfour|]. split; [reflexivity|].
  exact (proj1 (plotRadar_creates_blips_in_row_order 900 "Radar" inherited_quadrant
                  (Some "Q1") None Hfour)).
Defined.




(** ** The Radar that is handed over *)







(** X22. With at most four distinct ring names and no quadrant string that
    names an inherited property, [plotRadar] ends normally and hands one
    Radar to the graphing radar, as its last event. The Radar has as many
    Rings as the input has distinct ring names, as many Quadrants as the
    input has distinct quadrant strings, and as many Blips as the input has
    rows; the ring first met after [k] distinct earlier ring names is the
    Ring of order [k], and [k] is below four. *)
Theorem plotRadar_builds_radar (h : Z) (title : string) (blips : list InputBlip)
    (cur : option string) (alts : list string) :
  distinct_count (map ring blips) <= 4 ->
  plain_quadrants blips = true ->
  exists (before : list Event) (radar : Radar),
    plotRadar h title blips cur (Some alts)
    = Run (before ++ [GraphingRadarPlot (plot_size h) radar]) (Normal tt)
    /\ Forall (fun ev => hands_over ev = false) before
    /\ length (Radar_rings radar) = distinct_count (map ring blips)
    /\ length (Radar_quadrants radar) = distinct_count (map quadrant blips)
    /\ length (Radar_blips radar) = length blips
    /\ forall pre b post,
         blips = pre ++ b :: post -> ring b ∉ map ring pre ->
         distinct_count (map ring pre) < 4
         /\ mkRing (ring b) (distinct_count (map ring pre)) ∈ Radar_rings radar.
Proof.
  intros Hfour Hp.
  exists ([SetDocumentTitle (display_title title); RemoveLoading]
            ++ ring_events 0 (rings_of blips)
            ++ blip_events (ringMap_of blips) JsObject.empty blips ++ [NewRadar]),
         (radar_of blips cur alts).
  split; [|split; [|split; [|split; [|split]]]].
  - rewrite plotRadar_ok by (done || rewrite length_rings_of; unfold maxRings; lia).
    f_equal. rewrite <- !app_assoc. reflexivity.
  - repeat (apply Forall_app; split); repeat constructor.
    + apply ring_events_hand_nothing.
    + apply blip_events_hand_nothing.
  - by apply length_Radar_rings.
  - cbn [radar_of Radar_quadrants]. rewrite length_values. by apply length_quadrants_of.
  - rewrite Radar_blips_radar_of by done. apply length_map.
  - intros pre b post -> Hnew.
    pose proof (rings_of_first_occurrence pre post b Hnew) as Hpos.
    split.
    + apply lookup_lt_Some in Hpos. rewrite length_rings_of in Hpos. lia.
    + apply Radar_rings_radar_of; [done|]. eauto.
Qed.

Lemma plotRadar_builds_radar_witness :
  distinct_count (map ring three_rings) <= 4
  /\ plain_quadrants three_rings = true
  /\ exists (before : list Event) (radar : Radar),
       plotRadar 900 "Radar.csv" three_rings (Some "Sheet1") (Some ["Sheet1"; "Sheet2"])
       = Run (before ++ [GraphingRadarPlot (plot_size 900) radar]) (Normal tt)
       /\ length (Radar_rings radar) = 3
       /\ length (Radar_quadrants radar) = 3
       /\ length (Radar_blips radar) = 4.
Proof.
  split; [vm_compute; lia|]. split; [reflexivity|].
  destruct (plotRadar_builds_radar 900 "Radar.csv" three_rings (Some "Sheet1")
              ["Sheet1"; "Sheet2"]) as (before & radar & Hrun & _ & Hr & Hq & Hb & _).
  { vm_compute; lia. }
  { reflexivity. }
  exists before, radar. repeat split; assumption.
Defined.

(** ** The ingestion callbacks, whatever they are given *)

Lemma bind_silent {A B : Type} (m : Eff A) (f : A -> Eff B) :
  trace m = [] ->
  m ≫= f = match outcome m with
           | Normal a => f a
           | Throw e => Run [] (Throw e)
           end.
Proof.
  destruct m as [t [a|e]]; cbn [trace outcome]; intros ->; [|done].
  rewrite bind_prefixed. unfold prefixed. cbn [app]. by destruct (f a).
Qed.

Lemma verifyContent_silent (columnNames : list string) :
  trace (ContentValidator.verifyContent columnNames) = [].
Proof. rewrite verifyContent_run. by case_bool_decide. Qed.

Lemma verifyHeaders_silent (columnNames : list string) :
  trace (ContentValidator.verifyHeaders columnNames) = [].
Proof. rewrite verifyHeaders_run. by case_bool_decide. Qed.

Lemma FileName_silent (url : string) : trace (FileName url) = [].
Proof.
  unfold FileName, Uri.decodeURIComponent.
  destruct (Uri.decode (Uri.replace_plus url)) as [decoded|]; [|done].
  rewrite ret_bind. by destruct (Uri.file_exec decoded).
Qed.

Lemma settles_plotRadar (h : Z) (title : string) (blips : list InputBlip)
    (cur : option string) (alts : option (list string)) :
  settles (plotRadar h title blips cur alts).
Proof.
  destruct (plotRadar_handed_over h title blips cur alts) as [Hh He].
  split; [|split; [exact He|]].
  - destruct (plotRadar_cases h title blips cur alts)
      as [[_ ->] | [(_ & b & _ & ->) | [(_ & _ & _ & ->) | (_ & _ & names & _ & ->)]]];
      cbn [trace];
      repeat (apply Forall_app; split); repeat constructor;
      apply remote_ring_events || apply remote_blip_events.
  - destruct (outcome (plotRadar h title blips cur alts)).
    + destruct Hh as (names & _ & _ & _ & ->). done.
    + by rewrite Hh.
Qed.

Lemma settles_throw (e : Error) : settles (Run [] (Throw e)).
Proof. unfold settles. cbn. split; [constructor|done]. Qed.

Lemma settles_bind {A : Type} (m : Eff A) (f : A -> Eff unit) :
  trace m = [] -> (forall a, settles (f a)) -> settles (m ≫= f).
Proof.
  intros Hm Hf. rewrite bind_silent by done.
  destruct (outcome m); [apply Hf | apply settles_throw].
Qed.

Lemma plotErrorMessage_pages (e : Error) :
  Forall (fun ev => is_remote ev = false) (trace (plotErrorMessage e))
  /\ length (error_pages (trace (plotErrorMessage e))) = 1
  /\ handed_over (trace (plotErrorMessage e)) = [].
Proof. destruct e; repeat split; repeat constructor. Qed.

(** A body that settles, wrapped in the catch-all of a callback: the
    callback ends normally and has shown either one radar or one error
    page. *)
Lemma try_catch_settles (body : Eff unit) :
  settles body ->
  outcome (try_catch body plotErrorMessage) = Normal tt
  /\ Forall (fun ev => is_remote ev = false) (trace (try_catch body plotErrorMessage))
  /\ length (handed_over (trace (try_catch body plotErrorMessage)))
     + length (error_pages (trace (try_catch body plotErrorMessage))) = 1
  /\ handed_over (trace (try_catch body plotErrorMessage)) = handed_over (trace body).
Proof.
  intros (Hremote & Hpages & Hhanded). unfold try_catch.
  destruct body as [t [[]|e]]; cbn [trace outcome] in *.
  - rewrite Hpages, Hhanded. done.
  - destruct (plotErrorMessage_pages e) as (Hr & Hp & Hh).
    split; [apply plotErrorMessage_normal|]. split; [by apply Forall_app|].
    unfold handed_over, error_pages in *. rewrite !omap_app, !length_app.
    rewrite Hh, Hp, Hpages, Hhanded, app_nil_r. cbn [length]. split; [lia|done].
Qed.

Lemma settles_createBlips_body (env : Env) (sheetName : option string)
    (tabletop : Tabletop) :
  settles
    (sheet ← match sheets tabletop (default_sheetName sheetName (foundSheetNames tabletop)) with
             | Some sheet => mret sheet
             | None => throw (TypeError "tabletop.sheets(...) is undefined")
             end;
     ContentValidator.verifyContent (columnNames sheet);;
     ContentValidator.verifyHeaders (columnNames sheet);;
     sheet ← match sheets tabletop (default_sheetName sheetName (foundSheetNames tabletop)) with
             | Some sheet => mret sheet
             | None => throw (TypeError "tabletop.sheets(...) is undefined")
             end;
     plotRadar (innerHeight env)
       (googleSheetName tabletop +:+ " - "
          +:+ Js.to_str (default_sheetName sheetName (foundSheetNames tabletop)))
       (map InputSanitizer.sanitize (all sheet))
       (default_sheetName sheetName (foundSheetNames tabletop))
       (Some (foundSheetNames tabletop))).
Proof.
  apply settles_bind; [by destruct (sheets tabletop _)|]. intros sheet.
  apply settles_bind; [apply verifyContent_silent|]. intros _.
  apply settles_bind; [apply verifyHeaders_silent|]. intros _.
  apply settles_bind; [by destruct (sheets tabletop _)|]. intros sheet'.
  apply settles_plotRadar.
Qed.

Lemma settles_CSV_body (env : Env) (url : string) (data : CsvData) :
  settles
    (ContentValidator.verifyContent (columns data);;
     ContentValidator.verifyHeaders (columns data);;
     title ← FileName url;
     plotRadar (innerHeight env) title (map InputSanitizer.sanitize (rows data))
               (Some "CSV File") (Some [])).
Proof.
  apply settles_bind; [apply verifyContent_silent|]. intros _.
  apply settles_bind; [apply verifyHeaders_silent|]. intros _.
  apply settles_bind; [apply FileName_silent|]. intros title.
  apply settles_plotRadar.
Qed.

(** X8. The callback of the public sheet never throws, whatever Tabletop
    hands to it, and it calls no remote party. It always ends with exactly
    one of the two: a Radar handed to the graphing radar, or an error
    page. *)
Theorem createBlips_radar_or_error_page (env : Env) (sheetName : option string)
    (tabletop : Tabletop) :
  outcome (createBlips env sheetName tabletop) = Normal tt
  /\ Forall (fun ev => is_remote ev = false) (trace (createBlips env sheetName tabletop))
  /\ length (handed_over (trace (createBlips env sheetName tabletop)))
     + length (error_pages (trace (createBlips env sheetName tabletop))) = 1.
Proof.
  destruct (try_catch_settles _ (settles_createBlips_body env sheetName tabletop))
    as (Ho & Hr & Hone & _).
  split; [exact Ho|]. split; [exact Hr|exact Hone].
Qed.

(** X9. The CSV flow never throws. It fetches the file first; when the
    file resolves, the callback calls no remote party and ends with exactly
    one of a Radar handed over and an error page, and when it does not
    resolve nothing else happens. *)
Theorem CSVDocument_build_radar_or_error_page (env : Env) (url : string) :
  outcome (CSVDocument_build env url) = Normal tt
  /\ exists rest,
       trace (CSVDocument_build env url) = FetchCsv url :: rest
       /\ Forall (fun ev => is_remote ev = false) rest
       /\ length (handed_over rest) + length (error_pages rest)
          = match d3_csv env url with Some _ => 1 | None => 0 end.
Proof.
  unfold CSVDocument_build, emit. rewrite bind_prefixed.
  destruct (d3_csv env url) as [data|].
  - destruct (try_catch_settles _ (settles_CSV_body env url data)) as (Ho & Hr & Hone & _).
    split; [exact Ho|]. exists (trace (CSVDocument_createBlips env url data)).
    split; [reflexivity|]. split; [exact Hr|exact Hone].
  - split; [reflexivity|]. exists []. by repeat split.
Qed.

(** ** What the callbacks hand over *)

Lemma handed_over_bind {A : Type} (m : Eff A) (f : A -> Eff unit) (x : Z * Radar) :
  trace m = [] ->
  x ∈ handed_over (trace (m ≫= f)) ->
  exists a, outcome m = Normal a /\ x ∈ handed_over (trace (f a)).
Proof.
  intros Hm. rewrite bind_silent by done.
  destruct (outcome m) as [a|e]; [eauto|].
  intros Hin. by apply elem_of_nil in Hin.
Qed.

Lemma handed_over_plotRadar (h : Z) (title : string) (blips : list InputBlip)
    (cur : option string) (alts : option (list string)) (size : Z) (radar : Radar) :
  (size, radar) ∈ handed_over (trace (plotRadar h title blips cur alts)) ->
  exists names, alts = Some names /\ plain_quadrants blips = true
                /\ radar = radar_of blips cur names.
Proof.
  destruct (plotRadar_handed_over h title blips cur alts) as [Hh _].
  destruct (outcome (plotRadar h title blips cur alts)).
  - destruct Hh as (names & -> & _ & Hp & ->).
    intros [= -> ->]%list_elem_of_singleton. eauto.
  - rewrite Hh. intros Hin. by apply elem_of_nil in Hin.
Qed.

Lemma length_Radar_blips_radar_of (blips : list InputBlip) (cur : option string)
    (names : list string) :
  plain_quadrants blips = true ->
  length (Radar_blips (radar_of blips cur names)) = length blips.
Proof. intros Hp. rewrite Radar_blips_radar_of by done. apply length_map. Qed.

(** X10. When the callback of the public sheet hands over a Radar, the
    sheet it read is the one named in the query or, when that name is
    missing or empty, the first sheet that Tabletop found; this name is the
    current sheet of the Radar, the sheets found are its alternatives, both
    checks of the column names have passed, and the Radar has one Blip for
    every row of the sheet. *)
Theorem createBlips_hands_over (env : Env) (sheetName : option string)
    (tabletop : Tabletop) (size : Z) (radar : Radar) :
  (size, radar) ∈ handed_over (trace (createBlips env sheetName tabletop)) ->
  exists sheet,
    sheets tabletop (if Js.truthy sheetName then sheetName
                     else foundSheetNames tabletop !! 0) = Some sheet
    /\ outcome (ContentValidator.verifyContent (columnNames sheet)) = Normal tt
    /\ outcome (ContentValidator.verifyHeaders (columnNames sheet)) = Normal tt
    /\ Radar_currentSheet radar
       = (if Js.truthy sheetName then sheetName else foundSheetNames tabletop !! 0)
    /\ Radar_alternatives radar = foundSheetNames tabletop
    /\ length (Radar_blips radar) = length (all sheet).
Proof.
  destruct (try_catch_settles _ (settles_createBlips_body env sheetName tabletop))
    as (_ & _ & _ & Hsame).
  unfold createBlips. rewrite Hsame. clear Hsame.
  fold (default_sheetName sheetName (foundSheetNames tabletop)).
  intros Hin.
  apply handed_over_bind in Hin as (sheet & Hsheet & Hin);
    [|by destruct (sheets tabletop _)].
  apply handed_over_bind in Hin as ([] & Hcontent & Hin); [|apply verifyContent_silent].
  apply handed_over_bind in Hin as ([] & Hheaders & Hin); [|apply verifyHeaders_silent].
  apply handed_over_bind in Hin as (sheet' & Hsheet' & Hin);
    [|by destruct (sheets tabletop _)].
  apply handed_over_plotRadar in Hin as (names & [= <-] & Hp & ->).
  destruct (sheets tabletop (default_sheetName sheetName (foundSheetNames tabletop)))
    as [found|] eqn:Hfound; [|discriminate Hsheet].
  cbn in Hsheet, Hsheet'. injection Hsheet as <-. injection Hsheet' as <-.
  exists found. split; [done|]. split; [done|]. split; [done|].
  split; [done|]. split; [done|].
  rewrite length_Radar_blips_radar_of by done. apply length_map.
Qed.

Lemma createBlips_hands_over_witness :
  match handed_over (trace (createBlips empty_env None sample_tabletop)) with
  | (size, radar) :: _ =>
      Radar_currentSheet radar = Some "Q1"
      /\ Radar_alternatives radar = ["Q1"; "Q2"]
      /\ length (Radar_blips radar) = 2
  | [] => False
  end.
Proof.
  destruct (handed_over (trace (createBlips empty_env None sample_tabletop)))
    as [|[size radar] rest] eqn:Hhanded; [vm_compute in Hhanded; discriminate Hhanded|].
  destruct (createBlips_hands_over empty_env None sample_tabletop size radar)
    as (sheet & Hsheet & _ & _ & Hcur & Halt & Hlen).
  - rewrite Hhanded. by left.
  - injection Hsheet as <-. split; [exact Hcur|]. split; [exact Halt|exact Hlen].
Defined.


(** X11. When the callback of the CSV file hands over a Radar, both checks
    of the columns have passed, the current sheet of the Radar is [CSV File],
    it has no alternative sheets, and it has one Blip for every row of the
    file. *)
Theorem CSVDocument_createBlips_hands_over (env : Env) (url : string) (data : CsvData)
    (size : Z) (radar : Radar) :
  (size, radar) ∈ handed_over (trace (CSVDocument_createBlips env url data)) ->
  outcome (ContentValidator.verifyContent (columns data)) = Normal tt
  /\ outcome (ContentValidator.verifyHeaders (columns data)) = Normal tt
  /\ Radar_currentSheet radar = Some "CSV File"
  /\ Radar_alternatives radar = []
  /\ length (Radar_blips radar) = length (rows data).
Proof.
  destruct (try_catch_settles _ (settles_CSV_body env url data)) as (_ & _ & _ & Hsame).
  unfold CSVDocument_createBlips. rewrite Hsame. clear Hsame. intros Hin.
  apply handed_over_bind in Hin as ([] & Hcontent & Hin); [|apply verifyContent_silent].
  apply handed_over_bind in Hin as ([] & Hheaders & Hin); [|apply verifyHeaders_silent].
  apply handed_over_bind in Hin as (title & _ & Hin); [|apply FileName_silent].
  apply handed_over_plotRadar in Hin as (names & [= <-] & Hp & ->).
  split; [done|]. split; [done|]. split; [done|]. split; [done|].
  rewrite length_Radar_blips_radar_of by done. apply length_map.
Qed.

Lemma CSVDocument_createBlips_hands_over_witness :
  match handed_over (trace (CSVDocument_createBlips empty_env "radar.csv" sample_csv)) with
  | (size, radar) :: _ =>
      Radar_currentSheet radar = Some "CSV File"
      /\ Radar_alternatives radar = []
      /\ length (Radar_blips radar) = 2
  | [] => False
  end.
Proof.
  destruct (handed_over (trace (CSVDocument_createBlips empty_env "radar.csv" sample_csv)))
    as [|[size radar] rest] eqn:Hhanded; [vm_compute in Hhanded; discriminate Hhanded|].
  destruct (CSVDocument_createBlips_hands_over empty_env "radar.csv" sample_csv size radar)
    as (_ & _ & Hcur & Halt & Hlen).
  - rewrite Hhanded. by left.
  - split; [exact Hcur|]. split; [exact Halt|exact Hlen].
Defined.


(** ** The header row of a protected sheet *)

Lemma pair_up_get (header values : list string) (label : string) :
  JsObject.get (InputSanitizer.pair_up header values) label
  = position label header ≫= (fun i => values !! i).
Proof.
  revert values. induction header as [|h header IH]; intros values; [done|].
  destruct values as [|v values]; cbn [InputSanitizer.pair_up position].
  - destruct (String.eqb h label); [done|]. by destruct (position label header).
  - destruct (String.eqb_spec h label) as [->|Hne].
    + by rewrite get_set_eq.
    + rewrite get_set_ne by done. rewrite IH. by destruct (position label header).
Qed.

Lemma field_pair_up (header row : list string) (label : string) :
  InputSanitizer.field (InputSanitizer.pair_up header row) label = cell header row label.
Proof. unfold InputSanitizer.field, cell. by rewrite pair_up_get. Qed.

(** C10. In the protected path the first fetched row is the header: the
    content and header checks are made on it, and the rows handed on to
    [plotRadar] are the rows after it, each paired with it by position: a
    field of the record of a row is the trimmed value that the row has at
    the place of the field's label in the header. The header never becomes
    a Blip: whenever a Radar is handed over, it has exactly the Blips of the
    remaining rows, one less than the fetched rows. A Radar is handed over
    when the header passes the checks, the rows have at most four distinct
    ring names and no quadrant string names an inherited property. *)
Theorem protected_sheet_header_row (env : Env) (sheetName : option string)
    (documentTitle : string) (header : list string) (rows : list (list string))
    (sheetNames : list string) :
  createBlipsForProtectedSheet env sheetName documentTitle (header :: rows) sheetNames
  = (ContentValidator.verifyContent header;;
     ContentValidator.verifyHeaders header;;
     plotRadar (innerHeight env)
       (sheet_title documentTitle (default_sheetName sheetName sheetNames))
       (protected_blips header rows)
       (default_sheetName sheetName sheetNames) (Some sheetNames))
  /\ protected_blips header rows
     = map (fun row =>
              mkInputBlip (cell header row "name") (cell header row "quadrant")
                          (cell header row "ring") (cell header row "isNew")
                          (cell header row "topic") (cell header row "description"))
           rows
  /\ (forall (size : Z) (radar : Radar),
        (size, radar)
        ∈ handed_over (trace (createBlipsForProtectedSheet env sheetName documentTitle
                                (header :: rows) sheetNames)) ->
        Radar_blips radar
        ≡ₚ map (to_Blip (ringMap_of (protected_blips header rows)))
               (protected_blips header rows)
        /\ length (Radar_blips radar) = length (header :: rows) - 1)
  /\ (header <> [] ->
      Forall (fun field => field ∈ header) ContentValidator.required ->
      distinct_count (map ring (protected_blips header rows)) <= 4 ->
      plain_quadrants (protected_blips header rows) = true ->
      exists (before : list Event) (radar : Radar),
        createBlipsForProtectedSheet env sheetName documentTitle (header :: rows) sheetNames
        = Run (before ++ [GraphingRadarPlot (plot_size (innerHeight env)) radar]) (Normal tt)
        /\ Radar_blips radar
           ≡ₚ map (to_Blip (ringMap_of (protected_blips header rows)))
                  (protected_blips header rows)
        /\ length (Radar_blips radar) = length (header :: rows) - 1).
Proof.
  split; [apply createBlipsForProtectedSheet_run|]. split; [|split].
  - unfold protected_blips, InputSanitizer.sanitizeForProtectedSheet, InputSanitizer.sanitize.
    apply map_ext. intros row. by rewrite !field_pair_up.
  - intros size radar. rewrite createBlipsForProtectedSheet_run. intros Hin.
    apply handed_over_bind in Hin as ([] & _ & Hin); [|apply verifyContent_silent].
    apply handed_over_bind in Hin as ([] & _ & Hin); [|apply verifyHeaders_silent].
    apply handed_over_plotRadar in Hin as (names & [= <-] & Hp & ->).
    split; [by apply Radar_blips_radar_of|].
    rewrite length_Radar_blips_radar_of by done. unfold protected_blips.
    rewrite length_map. cbn [length]. lia.
  - intros Hcontent Hheaders Hfour Hp.
    rewrite createBlipsForProtectedSheet_run, verifyContent_run, verifyHeaders_run.
    rewrite (bool_decide_eq_false_2 (header = [])) by exact Hcontent.
    rewrite bool_decide_eq_true_2 by exact Hheaders.
    rewrite !bind_prefixed.
    rewrite plotRadar_ok by (done || rewrite length_rings_of; unfold maxRings; lia).
    rewrite !prefixed_Run. cbn [app].
    exists ([SetDocumentTitle
               (display_title
                  (sheet_title documentTitle (default_sheetName sheetName sheetNames)));
             RemoveLoading]
              ++ ring_events 0 (rings_of (protected_blips header rows))
              ++ blip_events (ringMap_of (protected_blips header rows)) JsObject.empty
                   (protected_blips header rows)
              ++ [NewRadar]),
           (radar_of (protected_blips header rows)
                     (default_sheetName sheetName sheetNames) sheetNames).
    split; [|split].
    + f_equal. rewrite <- !app_assoc. reflexivity.
    + by apply Radar_blips_radar_of.
    + rewrite Radar_blips_radar_of by done. unfold protected_blips.
      rewrite !length_map. cbn [length]. lia.
Qed.

Lemma protected_sheet_header_row_witness :
  sample_header <> []
  /\ Forall (fun field => field ∈ sample_header) ContentValidator.required
  /\ distinct_count (map ring (protected_blips sample_header (tail sample_values))) <= 4
  /\ plain_quadrants (protected_blips sample_header (tail sample_values)) = true
  /\ protected_blips sample_header (tail sample_values)
     = [ mkInputBlip "a" "tools" "Adopt" "TRUE" "" "first";
         mkInputBlip "b" "platforms" "Trial" "false" "" "second" ]
  /\ exists (before : list Event) (radar : Radar),
       createBlipsForProtectedSheet empty_env None "Radar" sample_values ["Q1"]
       = Run (before ++ [GraphingRadarPlot (plot_size (innerHeight empty_env)) radar])
             (Normal tt)
       /\ length (Radar_blips radar) = 2.
Proof.
  assert (sample_header <> []) as H1 by discriminate.
  assert (Forall (fun field => field ∈ sample_header) ContentValidator.required) as H2.
  { apply (bool_decide_unpack _). vm_compute. exact I. }
  assert (distinct_count (map ring (protected_blips sample_header (tail sample_values))) <= 4)
    as H3 by (vm_compute; lia).
  assert (plain_quadrants (protected_blips sample_header (tail sample_values)) = true)
    as H4 by reflexivity.
  split; [exact H1|]. split; [exact H2|]. split; [exact H3|]. split; [exact H4|].
  destruct (protected_sheet_header_row empty_env None "Radar" sample_header
              (tail sample_values) ["Q1"]) as (_ & Hcells & _ & Hplot).
  split; [rewrite Hcells; reflexivity|].
  destruct (Hplot H1 H2 H3 H4) as (before & radar & Hrun & _ & Hlen).
  exists before, radar. split; [exact Hrun|exact Hlen].
Defined.

(** X12. When the callback of the protected sheet hands over a Radar, the
    Radar has one Blip less than rows were fetched, and none when no row
    was fetched; its alternatives are the sheet names of the document and
    its current sheet is the sheet name of the query or, when that is
    missing or empty, the first sheet name of the document. *)
Theorem createBlipsForProtectedSheet_hands_over (env : Env) (sheetName : option string)
    (documentTitle : string) (values : list (list string)) (sheetNames : list string)
    (size : Z) (radar : Radar) :
  (size, radar)
  ∈ handed_over (trace (createBlipsForProtectedSheet env sheetName documentTitle
                          values sheetNames)) ->
  length (Radar_blips radar) = length values - 1
  /\ Radar_alternatives radar = sheetNames
  /\ Radar_currentSheet radar
     = (if Js.truthy sheetName then sheetName else sheetNames !! 0).
Proof.
  destruct values as [|header rows].
  - unfold createBlipsForProtectedSheet. cbn [foldM]. rewrite ret_bind.
    intros (names & [= <-] & Hp & ->)%handed_over_plotRadar.
    split; [by rewrite length_Radar_blips_radar_of|]. done.
  - rewrite createBlipsForProtectedSheet_run. intros Hin.
    apply handed_over_bind in Hin as ([] & _ & Hin); [|apply verifyContent_silent].
    apply handed_over_bind in Hin as ([] & _ & Hin); [|apply verifyHeaders_silent].
    apply handed_over_plotRadar in Hin as (names & [= <-] & Hp & ->).
    split; [|done]. rewrite length_Radar_blips_radar_of by done. unfold protected_blips.
    rewrite length_map. cbn [length]. lia.
Qed.

Lemma createBlipsForProtectedSheet_hands_over_witness :
  match handed_over
          (trace (createBlipsForProtectedSheet empty_env (Some "") "Radar" sample_values
                    ["Q1"; "Q2"])) with
  | (size, radar) :: _ =>
      length (Radar_blips radar) = 2
      /\ Radar_alternatives radar = ["Q1"; "Q2"]
      /\ Radar_currentSheet radar = Some "Q1"
  | [] => False
  end.
Proof.
  destruct (handed_over
              (trace (createBlipsForProtectedSheet empty_env (Some "") "Radar" sample_values
                        ["Q1"; "Q2"])))
    as [|[size radar] rest] eqn:Hhanded; [vm_compute in Hhanded; discriminate Hhanded|].
  apply (createBlipsForProtectedSheet_hands_over empty_env (Some "") "Radar" sample_values
           ["Q1"; "Q2"] size radar).
  rewrite Hhanded. by left.
Defined.


(** X13. With no fetched row the callback of the protected sheet checks
    nothing: it sets the title, removes the loading page and hands over a
    Radar without Quadrants. *)
Theorem createBlipsForProtectedSheet_without_rows (env : Env) (sheetName : option string)
    (documentTitle : string) (sheetNames : list string) :
  createBlipsForProtectedSheet env sheetName documentTitle [] sheetNames
  = Run [ SetDocumentTitle
            (display_title
               (documentTitle +:+ " - "
                  +:+ Js.to_str (if Js.truthy sheetName then sheetName
                                 else sheetNames !! 0)));
          RemoveLoading; NewRadar;
          GraphingRadarPlot (Z.max 620 (innerHeight env - 133))
            (mkRadar [] sheetNames
               (if Js.truthy sheetName then sheetName else sheetNames !! 0)) ]
        (Normal tt).
Proof.
  unfold createBlipsForProtectedSheet. cbn [foldM]. rewrite ret_bind.
  rewrite plotRadar_ok by (done || cbn; unfold maxRings; lia).
  rewrite plot_size_max. reflexivity.
Qed.

(** X14. When Tabletop knows no sheet of the name looked for, the callback
    of the public sheet logs a TypeError and shows the error page with the
    general message; no Radar is built. *)
Theorem createBlips_unknown_sheet (env : Env) (sheetName : option string)
    (tabletop : Tabletop) :
  sheets tabletop (if Js.truthy sheetName then sheetName
                   else foundSheetNames tabletop !! 0) = None ->
  exists message,
    createBlips env sheetName tabletop
    = Run [ SetDocumentTitle default_title; RemoveLoading;
            ConsoleError (TypeError message);
            Display (ErrorPage not_found_message None) ] (Normal tt).
Proof.
  intros Hnone. eexists. unfold createBlips.
  fold (default_sheetName sheetName (foundSheetNames tabletop)) in Hnone.
  rewrite Hnone. reflexivity.
Qed.

Lemma createBlips_unknown_sheet_witness :
  exists message,
    createBlips empty_env (Some "Q3") (mkTabletop ["Q1"] (fun _ => None) "Radar")
    = Run [ SetDocumentTitle default_title; RemoveLoading;
            ConsoleError (TypeError message);
            Display (ErrorPage not_found_message None) ] (Normal tt).
Proof.
  apply (createBlips_unknown_sheet empty_env (Some "Q3")
           (mkTabletop ["Q1"] (fun _ => None) "Radar")).
  reflexivity.
Defined.

(** X15. When the anonymous read of a spreadsheet succeeds, the flow never
    throws and never asks for a login: after the validation and the start
    of Tabletop no remote party is called, and when Tabletop calls back the
    flow ends with exactly one of a Radar handed over and an error page. *)
Theorem GoogleSheet_build_public (env : Env) (sheetReference : string)
    (sheetName : option string) :
  Sheet_validate env sheetReference = None ->
  outcome (GoogleSheet_build env sheetReference sheetName) = Normal tt
  /\ exists rest,
       trace (GoogleSheet_build env sheetReference sheetName)
       = SheetValidate sheetReference :: TabletopInit (Sheet_id env sheetReference) :: rest
       /\ Forall (fun ev => is_remote ev = false) rest
       /\ length (handed_over rest) + length (error_pages rest)
          = match Tabletop_init env (Sheet_id env sheetReference) with
            | Some _ => 1
            | None => 0
            end.
Proof.
  intros Hvalid. unfold GoogleSheet_build, emit. rewrite Hvalid, !bind_prefixed.
  destruct (Tabletop_init env (Sheet_id env sheetReference)) as [tabletop|].
  - destruct (try_catch_settles _ (settles_createBlips_body env sheetName tabletop))
      as (Ho & Hr & Hone & _).
    split; [exact Ho|]. exists (trace (createBlips env sheetName tabletop)).
    split; [reflexivity|]. split; [exact Hr|exact Hone].
  - split; [reflexivity|]. exists []. by repeat split.
Qed.

Lemma GoogleSheet_build_public_witness :
  Sheet_validate public_env "abc123" = None
  /\ outcome (GoogleSheet_build public_env "abc123" (Some "Q1")) = Normal tt
  /\ exists rest,
       trace (GoogleSheet_build public_env "abc123" (Some "Q1"))
       = SheetValidate "abc123" :: TabletopInit "abc123" :: rest
       /\ Forall (fun ev => is_remote ev = false) rest
       /\ length (handed_over rest) + length (error_pages rest) = 1
       /\ length (handed_over rest) = 1.
Proof.
  split; [reflexivity|].
  destruct (GoogleSheet_build_public public_env "abc123" (Some "Q1") eq_refl)
    as (Ho & rest & Htrace & Hremote & Hone).
  split; [exact Ho|]. exists rest.
  split; [exact Htrace|]. split; [exact Hremote|]. split; [exact Hone|].
  assert (rest = tail (tail (trace (GoogleSheet_build public_env "abc123" (Some "Q1")))))
    as -> by (by rewrite Htrace).
  vm_compute. reflexivity.
Defined.

(** ** Domain names and file names *)

Lemma segment_split (s : string) :
  exists post, s = Uri.segment s +:+ post
               /\ at_boundary post = true
               /\ no_separator (Uri.segment s) = true.
Proof.
  induction s as [|c s (post & Hs & Hb & Hn)]; [by exists ""|].
  cbn [Uri.segment]. destruct (Uri.is_separator c) eqn:Hc.
  - exists (String c s). by repeat split.
  - exists post. change (String c (Uri.segment s) +:+ post)
      with (String c (Uri.segment s +:+ post)).
    rewrite <- Hs. cbn [no_separator]. by rewrite Hc, Hn.
Qed.

Lemma segment_whole (s : string) : no_separator s = true -> Uri.segment s = s.
Proof.
  induction s as [|c s IH]; [done|]. cbn [no_separator Uri.segment].
  intros [Hc Hs]%andb_true_iff. apply negb_true_iff in Hc. rewrite Hc. by rewrite IH.
Qed.

Lemma segment_not_whole (dir file : string) (c : ascii) :
  Uri.is_separator c = true ->
  String.eqb (Uri.segment (dir +:+ String c file)) (dir +:+ String c file) = false.
Proof.
  intros Hc. apply String.eqb_neq. intros Heq.
  assert (no_separator (dir +:+ String c file) = true) as Hno.
  { rewrite <- Heq. by destruct (segment_split (dir +:+ String c file)) as (? & _ & _ & ?). }
  clear Heq. induction dir as [|a dir IH].
  - change ("" +:+ String c file) with (String c file) in Hno.
    cbn [no_separator] in Hno. by rewrite Hc in Hno.
  - change (String a dir +:+ String c file) with (String a (dir +:+ String c file)) in Hno.
    cbn [no_separator] in Hno. apply andb_true_iff in Hno as [_ Hno]. by apply IH.
Qed.

Lemma scheme_mark_sound (s d : string) :
  Uri.scheme_mark s = Some d ->
  d <> "" /\ no_separator d = true
  /\ exists post, s = "://" +:+ d +:+ post /\ at_boundary post = true.
Proof.
  unfold Uri.scheme_mark.
  destruct s as [|c1 s]; [done|].
  destruct c1 as [[] [] [] [] [] [] [] []]; try done.
  destruct s as [|c2 s]; [done|].
  destruct c2 as [[] [] [] [] [] [] [] []]; try done.
  destruct s as [|c3 rest]; [done|].
  destruct c3 as [[] [] [] [] [] [] [] []]; try done.
  destruct (String.eqb_spec (Uri.segment rest) "") as [|Hne]; [done|].
  intros [= <-]. destruct (segment_split rest) as (post & Hrest & Hb & Hn).
  split; [done|]. split; [done|]. exists post. split; [|done].
  change ("://" +:+ Uri.segment rest +:+ post)
    with (String ":" (String "/" (String "/" (Uri.segment rest +:+ post)))).
  by rewrite <- Hrest.
Qed.

Lemma domain_rest_sound (s d : string) :
  Uri.domain_rest s = Some d ->
  d <> "" /\ no_separator d = true
  /\ exists pre post, s = pre +:+ "://" +:+ d +:+ post /\ at_boundary post = true.
Proof.
  induction s as [|c s IH]; [done|]. cbn [Uri.domain_rest].
  destruct (if Uri.is_line_terminator (String c s) then None else Uri.domain_rest s)
    as [d'|] eqn:Hrest.
  - intros [= ->]. destruct (Uri.is_line_terminator (String c s)); [done|].
    destruct (IH Hrest) as (Hd & Hn & pre & post & -> & Hb).
    split; [done|]. split; [done|]. by exists (String c pre), post.
  - intros (Hd & Hn & post & Hs & Hb)%scheme_mark_sound.
    split; [done|]. split; [done|]. by exists "", post.
Qed.

Lemma domain_at_sound (s d : string) :
  Uri.domain_at s = Some d ->
  d <> "" /\ no_separator d = true
  /\ exists pre post,
       pre <> "" /\ s = pre +:+ "://" +:+ d +:+ post /\ at_boundary post = true.
Proof.
  destruct s as [|c s]; [done|]. cbn [Uri.domain_at].
  destruct (Uri.is_line_terminator (String c s)); [done|].
  intros (Hd & Hn & pre & post & -> & Hb)%domain_rest_sound.
  split; [done|]. split; [done|]. by exists (String c pre), post.
Qed.

Lemma domain_exec_sound_below (n : nat) (s d : string) :
  String.length s < n ->
  Uri.domain_exec s = Some d ->
  d <> "" /\ no_separator d = true
  /\ exists pre post,
       pre <> "" /\ s = pre +:+ "://" +:+ d +:+ post /\ at_boundary post = true.
Proof.
  revert s. induction n as [|n IH]; intros s Hlen; [lia|].
  destruct s as [|c1 s1]; [done|]. cbn [Uri.domain_exec].
  destruct (Uri.domain_at (String c1 s1)) as [d'|] eqn:Hat.
  { intros [= ->]. by apply domain_at_sound. }
  cbn [String.length] in Hlen.
  assert (Uri.domain_exec s1 = Some d ->
          d <> "" /\ no_separator d = true
          /\ exists pre post,
               pre <> "" /\ String c1 s1 = pre +:+ "://" +:+ d +:+ post
               /\ at_boundary post = true) as Hnext.
  { intros (Hd & Hn & pre & post & Hpre & -> & Hb)%IH; [|lia].
    split; [done|]. split; [done|]. by exists (String c1 pre), post. }
  destruct s1 as [|c2 [|c3 s3]]; [exact Hnext..|].
  destruct (Uri.is_line_separator (String c1 (String c2 (String c3 s3)))); [|exact Hnext].
  intros (Hd & Hn & pre & post & Hpre & -> & Hb)%IH; [|cbn [String.length] in Hlen; lia].
  split; [done|]. split; [done|].
  by exists (String c1 (String c2 (String c3 pre))), post.
Qed.

Lemma domain_exec_sound (s d : string) :
  Uri.domain_exec s = Some d ->
  d <> "" /\ no_separator d = true
  /\ exists pre post,
       pre <> "" /\ s = pre +:+ "://" +:+ d +:+ post /\ at_boundary post = true.
Proof. apply (domain_exec_sound_below (S (String.length s))). lia. Qed.

(** No line terminator ends in a colon: whether one stands at the front of
    a string that is followed by a colon is decided by the string. *)
Lemma is_line_terminator_append (m t : string) :
  m <> "" ->
  Uri.is_line_terminator (m +:+ String ":" t) = Uri.is_line_terminator m.
Proof.
  intros Hm. destruct m as [|c1 [|c2 [|c3 m]]]; [done| | |reflexivity].
  - change (String c1 "" +:+ String ":" t) with (String c1 (String ":" t)).
    unfold Uri.is_line_terminator, Uri.is_line_separator.
    destruct t; [done|]. change (Ascii.eqb ":" "128") with false.
    by rewrite andb_false_r.
  - change (String c1 (String c2 "") +:+ String ":" t)
      with (String c1 (String c2 (String ":" t))).
    unfold Uri.is_line_terminator, Uri.is_line_separator.
    change (Ascii.eqb ":" "168") with false. change (Ascii.eqb ":" "169") with false.
    by rewrite andb_false_r.
Qed.

Lemma domain_rest_complete (mid rest : string) (c : ascii) :
  one_line mid = true -> Uri.is_separator c = false ->
  is_Some (Uri.domain_rest (mid +:+ "://" +:+ String c rest)).
Proof.
  intros Hmid Hc. induction mid as [|a mid IH].
  - change ("" +:+ "://" +:+ String c rest)
      with (String ":" (String "/" (String "/" (String c rest)))).
    cbn [Uri.domain_rest].
    destruct (if Uri.is_line_terminator _ then None else _); [eauto|].
    cbn [Uri.scheme_mark Uri.segment]. rewrite Hc. eauto.
  - cbn [one_line] in Hmid. apply andb_true_iff in Hmid as [Ha Hmid].
    apply negb_true_iff in Ha.
    rewrite <- (is_line_terminator_append (String a mid) ("//" +:+ String c rest)) in Ha
      by done.
    change (String a mid +:+ String ":" ("//" +:+ String c rest))
      with (String a (mid +:+ "://" +:+ String c rest)) in Ha.
    change (String a mid +:+ "://" +:+ String c rest)
      with (String a (mid +:+ "://" +:+ String c rest)).
    cbn [Uri.domain_rest]. rewrite Ha.
    destruct (IH Hmid) as [d ->]. eauto.
Qed.

Lemma domain_exec_complete (pre rest : string) (c : ascii) :
  pre <> "" -> one_line pre = true -> Uri.is_separator c = false ->
  is_Some (Uri.domain_exec (pre +:+ "://" +:+ String c rest)).
Proof.
  intros Hpre Hline Hc. destruct pre as [|a mid]; [done|].
  cbn [one_line] in Hline. apply andb_true_iff in Hline as [Ha Hmid].
  apply negb_true_iff in Ha.
  rewrite <- (is_line_terminator_append (String a mid) ("//" +:+ String c rest)) in Ha
    by done.
  change (String a mid +:+ String ":" ("//" +:+ String c rest))
    with (String a (mid +:+ "://" +:+ String c rest)) in Ha.
  change (String a mid +:+ "://" +:+ String c rest)
    with (String a (mid +:+ "://" +:+ String c rest)).
  assert (is_Some (Uri.domain_at (String a (mid +:+ "://" +:+ String c rest)))) as [d Hd].
  { cbn [Uri.domain_at]. rewrite Ha. by apply domain_rest_complete. }
  destruct (mid +:+ "://" +:+ String c rest); cbn [Uri.domain_exec]; rewrite Hd; eauto.
Qed.

Lemma DomainName_parts (url : string) :
  forall result, DomainName url = mret result ->
  exists decoded, Uri.decode (Uri.replace_plus url) = Some decoded
                  /\ mret (M := Eff) result = mret (Uri.domain_exec decoded).
Proof.
  intros result. unfold DomainName, Uri.decodeURIComponent.
  destruct (Uri.decode (Uri.replace_plus url)) as [decoded|]; [|done].
  rewrite ret_bind. intros <-. eauto.
Qed.

(** X16. [DomainName] throws nothing but a URIError, and only when the
    query string cannot be decoded. A domain name that it returns is never
    empty and has no slash or backslash: it stands in the decoded string
    right after [://], which is preceded by at least one character, and it
    ends at the next slash or backslash or at the end. And it does return a
    name whenever the decoded string has [://] after at least one character,
    all on one line (no line feed, carriage return, line separator or
    paragraph separator before it), followed by a character other than
    slash and backslash. *)
Theorem DomainName_result (url : string) :
  match Uri.decode (Uri.replace_plus url) with
  | None => DomainName url = throw URIError
  | Some decoded =>
      exists result,
        DomainName url = mret result
        /\ (forall domain, result = Some domain ->
              domain <> "" /\ no_separator domain = true
              /\ exists pre post,
                   pre <> ""
                   /\ decoded = pre +:+ "://" +:+ domain +:+ post
                   /\ at_boundary post = true)
        /\ (forall pre rest c,
              decoded = pre +:+ "://" +:+ String c rest ->
              pre <> "" -> one_line pre = true -> Uri.is_separator c = false ->
              is_Some result)
  end.
Proof.
  unfold DomainName, Uri.decodeURIComponent.
  destruct (Uri.decode (Uri.replace_plus url)) as [decoded|]; [|done].
  exists (Uri.domain_exec decoded). split; [by rewrite ret_bind|]. split.
  - intros domain. apply domain_exec_sound.
  - intros pre rest c ->. apply domain_exec_complete.
Qed.

Lemma file_exec_last (dir file : string) (c : ascii) :
  Uri.is_separator c = true -> file <> "" -> no_separator file = true ->
  Uri.file_exec (dir +:+ String c file) = Some file.
Proof.
  intros Hc Hfile Hno. induction dir as [|a dir IH].
  - change ("" +:+ String c file) with (String c file). cbn [Uri.file_exec].
    rewrite Hc. cbn [negb andb]. destruct file as [|b file]; [done|].
    cbn [no_separator] in Hno. apply andb_true_iff in Hno as [Hb Hno].
    cbn [Uri.file_exec]. rewrite Hb, (segment_whole file Hno), String.eqb_refl. done.
  - change (String a dir +:+ String c file) with (String a (dir +:+ String c file)).
    cbn [Uri.file_exec]. rewrite segment_not_whole by done.
    rewrite andb_false_r. exact IH.
Qed.

Lemma file_exec_whole (file : string) :
  file <> "" -> no_separator file = true -> Uri.file_exec file = Some file.
Proof.
  intros Hfile Hno. destruct file as [|b file]; [done|].
  cbn [no_separator] in Hno. apply andb_true_iff in Hno as [Hb Hno].
  cbn [Uri.file_exec]. by rewrite Hb, (segment_whole file Hno), String.eqb_refl.
Qed.

Lemma file_exec_none (dir : string) (c : ascii) :
  Uri.is_separator c = true -> Uri.file_exec (dir +:+ String c "") = None.
Proof.
  intros Hc. induction dir as [|a dir IH].
  - change ("" +:+ String c "") with (String c ""). cbn [Uri.file_exec].
    by rewrite Hc.
  - change (String a dir +:+ String c "") with (String a (dir +:+ String c "")).
    cbn [Uri.file_exec]. rewrite segment_not_whole by done.
    rewrite andb_false_r. exact IH.
Qed.

(** X17. [FileName] throws a URIError when the url cannot be decoded.
    Otherwise it returns what follows the last slash or backslash of the
    decoded url, the whole decoded url when it has neither; when the decoded
    url is empty or ends with a slash or backslash, it returns the url as it
    was given, not decoded. *)
Theorem FileName_result (url : string) :
  match Uri.decode (Uri.replace_plus url) with
  | None => FileName url = throw URIError
  | Some decoded =>
      (forall dir c file,
         decoded = dir +:+ String c file ->
         Uri.is_separator c = true -> file <> "" -> no_separator file = true ->
         FileName url = mret file)
      /\ (decoded <> "" -> no_separator decoded = true -> FileName url = mret decoded)
      /\ (decoded = "" -> FileName url = mret url)
      /\ (forall dir c,
            decoded = dir +:+ String c "" -> Uri.is_separator c = true ->
            FileName url = mret url)
  end.
Proof.
  unfold FileName, Uri.decodeURIComponent.
  destruct (Uri.decode (Uri.replace_plus url)) as [decoded|]; [|done].
  rewrite ret_bind. split; [|split; [|split]].
  - intros dir c file -> Hc Hfile Hno. by rewrite file_exec_last.
  - intros Hne Hno. by rewrite file_exec_whole.
  - intros ->. reflexivity.
  - intros dir c -> Hc. by rewrite file_exec_none.
Qed.

(** X18. When a domain name was found in the query string and a [sheetId]
    parameter is present, the locator decides by two suffixes. A [sheetId]
    that ends with [csv], with or without a dot before it, starts the CSV
    flow, whatever the domain is; otherwise a domain name that ends with
    [google.com], with a [sheetId] that is not empty, starts the spreadsheet
    flow; otherwise the form is shown. *)
Theorem locator_decides_by_suffix (env : Env) (domain sheetId : string)
    (queryParams : JsObject.t string) :
  DomainName (Uri.substring1 (search env)) = mret (Some domain) ->
  queryParams_of env = Normal queryParams ->
  JsObject.get queryParams "sheetId" = Some sheetId ->
  GoogleSheetInput_build env
  = if Js.endsWith sheetId "csv"
    then init;; CSVDocument_build env sheetId
    else if Js.endsWith domain "google.com" && negb (String.eqb sheetId "")
    then emit (ConsoleLog (JsObject.get queryParams "sheetName"));;
         init;;
         GoogleSheet_build env sheetId (JsObject.get queryParams "sheetName")
    else setDocumentTitle;; plotForm.
Proof.
  intros Hd Hq Hid.
  assert (domain <> "") as Hdomain.
  { destruct (DomainName_parts _ _ Hd) as (decoded & _ & Hexec).
    injection Hexec as Hexec. symmetry in Hexec.
    by apply domain_exec_sound in Hexec as [? _]. }
  rewrite (GoogleSheetInput_build_run env (Some domain) queryParams) by done.
  cbn [Js.truthy Js.to_str]. destruct (String.eqb_spec domain ""); [done|]. cbn [negb].
  unfold sheetId_endsWith_csv. rewrite Hid, ret_bind. cbn [Js.truthy Js.to_str andb].
  reflexivity.
Qed.

Lemma locator_decides_by_suffix_witness :
  GoogleSheetInput_build hosted_csv_env
  = (init;; CSVDocument_build hosted_csv_env "https://example.com/data.csv").
Proof.
  exact (locator_decides_by_suffix hosted_csv_env "example.com"
           "https://example.com/data.csv"
           [("sheetId", "https://example.com/data.csv")] eq_refl eq_refl eq_refl).
Defined.

(** ** The protected flow and the title of a CSV radar *)

(** X19. The callback of the protected sheet shows no error page and calls
    no remote party, whatever rows it is given; it has handed over one Radar
    when it ends normally and none when it throws. *)
Theorem createBlipsForProtectedSheet_settles (env : Env) (sheetName : option string)
    (documentTitle : string) (values : list (list string)) (sheetNames : list string) :
  Forall (fun ev => is_remote ev = false)
         (trace (createBlipsForProtectedSheet env sheetName documentTitle values sheetNames))
  /\ error_pages
       (trace (createBlipsForProtectedSheet env sheetName documentTitle values sheetNames))
     = []
  /\ length (handed_over
               (trace (createBlipsForProtectedSheet env sheetName documentTitle values
                         sheetNames)))
     = match outcome (createBlipsForProtectedSheet env sheetName documentTitle values
                        sheetNames) with
       | Normal _ => 1
       | Throw _ => 0
       end.
Proof.
  change (settles (createBlipsForProtectedSheet env sheetName documentTitle values sheetNames)).
  destruct values as [|header rows].
  - unfold createBlipsForProtectedSheet. cbn [foldM]. rewrite ret_bind.
    apply settles_plotRadar.
  - rewrite createBlipsForProtectedSheet_run.
    apply settles_bind; [apply verifyContent_silent|]. intros _.
    apply settles_bind; [apply verifyHeaders_silent|]. intros _.
    apply settles_plotRadar.
Qed.

(** X20. An authentication reaches the sheet only through the login: when
    the login does not call back, nothing follows it, neither the protected
    read nor the callback nor a page. When it calls back, the protected read
    is issued with the sheet name of the query, then the callback runs, and
    then the response is handled; the flag of a forced login is the one
    given. *)
Theorem GoogleSheet_authenticate_order (env : Env) (sheetReference : string)
    (sheetName : option string) (force : bool) (callback : Eff unit) :
  outcome callback = Normal tt ->
  GoogleSheet_authenticate env sheetReference sheetName force callback
  = if GoogleAuth_login env force
    then prefixed ([LoadGoogle; Login force; ProcessSheetResponse sheetReference sheetName]
                     ++ trace callback)
           match Sheet_processSheetResponse env sheetReference sheetName with
           | SheetData documentTitle values sheetNames =>
               createBlipsForProtectedSheet env sheetName documentTitle values sheetNames
           | SheetError error =>
               if bool_decide (status error = Some 403%Z)
               then plotUnauthorizedErrorMessage
               else plotErrorMessage error
           end
    else Run [LoadGoogle; Login force] (Normal tt).
Proof.
  intros Hcallback. unfold GoogleSheet_authenticate, emit. rewrite !bind_prefixed.
  destruct (GoogleAuth_login env force); [|reflexivity].
  rewrite ?bind_prefixed. destruct callback as [t [[]|e]]; [|discriminate Hcallback].
  rewrite bind_prefixed. unfold prefixed. cbn [trace outcome app].
  rewrite ?app_assoc. reflexivity.
Qed.

Lemma GoogleSheet_authenticate_order_witness :
  GoogleSheet_authenticate
    (sample_env "" "" None true (SheetError (ResponseError 403)))
    "sheet" (Some "Q1") true (emit (ConsoleLog (Some "switched")))
  = Run [LoadGoogle; Login true; ProcessSheetResponse "sheet" (Some "Q1");
         ConsoleLog (Some "switched"); SetDocumentTitle default_title; RemoveLoading;
         Display UnauthorizedPage] (Normal tt).
Proof.
  exact (GoogleSheet_authenticate_order
           (sample_env "" "" None true (SheetError (ResponseError 403)))
           "sheet" (Some "Q1") true (emit (ConsoleLog (Some "switched"))) eq_refl).
Defined.

(** X21. A CSV file whose columns pass both checks gives its radar the name
    of the file: when the decoded url ends, after its last slash or
    backslash, with a name and [.csv], the callback first sets the document
    title to that name, without the [.csv], and removes the loading page. *)
Theorem CSVDocument_title_is_file_name (env : Env) (url : string) (data : CsvData)
    (dir stem : string) (c : ascii) :
  outcome (ContentValidator.verifyContent (columns data)) = Normal tt ->
  outcome (ContentValidator.verifyHeaders (columns data)) = Normal tt ->
  Uri.decode (Uri.replace_plus url) = Some (dir +:+ String c (stem +:+ ".csv")) ->
  Uri.is_separator c = true ->
  no_separator stem = true ->
  exists rest,
    trace (CSVDocument_createBlips env url data)
    = SetDocumentTitle stem :: RemoveLoading :: rest.
Proof.
  intros Hcontent Hheaders Hdecode Hc Hstem.
  assert (FileName url = mret (stem +:+ ".csv")) as Hname.
  { unfold FileName, Uri.decodeURIComponent. rewrite Hdecode, ret_bind.
    rewrite file_exec_last; [done|done| |].
    - by destruct stem.
    - clear -Hstem. induction stem as [|a stem IH]; [done|].
      change (String a stem +:+ ".csv") with (String a (stem +:+ ".csv")).
      cbn [no_separator] in *. apply andb_true_iff in Hstem as [-> Hstem]. by apply IH. }
  unfold CSVDocument_createBlips.
  rewrite (bind_silent (ContentValidator.verifyContent _)) by apply verifyContent_silent.
  rewrite Hcontent.
  rewrite (bind_silent (ContentValidator.verifyHeaders _)) by apply verifyHeaders_silent.
  rewrite Hheaders, Hname, ret_bind.
  destruct (plotRadar_sets_title_parts (innerHeight env) (stem +:+ ".csv")
              (map InputSanitizer.sanitize (rows data)) (Some "CSV File") (Some []))
    as [rest Hrest].
  rewrite display_title_csv in Hrest. unfold try_catch.
  destruct (outcome (plotRadar _ _ _ _ _)).
  - eauto.
  - cbn [trace]. rewrite Hrest. cbn [app]. eauto.
Qed.

Lemma CSVDocument_title_is_file_name_witness :
  exists rest,
    trace (CSVDocument_createBlips empty_env "https://example.com/files/my+radar.csv"
             (mkCsvData sample_header []))
    = SetDocumentTitle "my radar" :: RemoveLoading :: rest.
Proof.
  apply (CSVDocument_title_is_file_name empty_env "https://example.com/files/my+radar.csv"
           (mkCsvData sample_header []) "https://example.com/files" "my radar" "/").
  - reflexivity.
  - reflexivity.
  - reflexivity.
  - reflexivity.
  - reflexivity.
Defined.
